(** * The federated-learning server ([fl_server.py]): configuration schedule,
    metric aggregation, centralized evaluation and start-up check

    A shallow embedding of the pure parts of [fl_server.py], of [config.py]
    and of the Python operations they rest on.

    - Python values that travel in the dictionaries of the program (flwr's
      [Scalar = Union[bool, bytes, float, int, str]]) are the type [pyval];
      a Python [int] is a [Z], a Python [float] is a binary64 number
      ([PrimFloat.float]), a [dict] keyed by strings is a [gmap string _].
    - A raised exception is the [Raise] case of the [result] monad.
    - [sum] is the left-to-right addition loop of CPython up to 3.11 (the
      interpreters the flwr API used here, [eval_fn] and [fraction_eval],
      ran on); the compensated summation of CPython 3.12 is not modelled.
    - Console output ([print]) changes no returned value and no raised
      exception and is left out.
    - The collaborators that are not part of the two source files
      ([flwr], [torch], [codes.data_loader], [codes.model_utils],
      [codes.evaluations.eval_utils]) are Section variables.
    - The confusion counts of the scorer are read both as Python integers
      and as [np.int64] scalars, whose [+] wraps around and whose [/] is
      IEEE division without an exception. *)

From Stdlib Require Import ZArith Floats Permutation.
From stdpp Require Import gmap strings list fin_maps pretty.

Set Warnings "-inexact-float".
Local Open Scope Z_scope.

(** ** Python values, exceptions and the error monad *)

Module Py.

(** flwr's [Scalar]: the values a metrics or configuration dictionary holds. *)
Inductive pyval : Type :=
  | PBool (b : bool)
  | PInt (z : Z)
  | PFloat (f : float)
  | PStr (s : string)
  | PBytes (b : list Byte.byte).

(** The exception classes the modelled code can raise. *)
Inductive exn : Type :=
  | KeyError (key : string)
  | ZeroDivisionError
  | OverflowError
  | TypeError
  | AssertionError (msg : string).

Inductive result (A : Type) : Type :=
  | Ok (a : A)
  | Raise (e : exn).
Arguments Ok {A} a.
Arguments Raise {A} e.

#[global] Instance result_ret : MRet result := λ A a, Ok a.
#[global] Instance result_bind : MBind result := λ A B f m,
  match m with
  | Ok a => f a
  | Raise e => Raise e
  end.

(** The computation raises. *)
Definition fails {A} (r : result A) : Prop :=
  match r with Ok _ => False | Raise _ => True end.

(** *** Numbers

    [bool] is a subclass of [int]: in arithmetic [True] is 1 and [False] is 0. *)
Inductive num : Type :=
  | NInt (z : Z)
  | NFloat (f : float).

Definition as_num (v : pyval) : option num :=
  match v with
  | PBool b => Some (NInt (Z.b2z b))
  | PInt z => Some (NInt z)
  | PFloat f => Some (NFloat f)
  | PStr _ | PBytes _ => None
  end.

(** The binary64 number nearest to an integer (ties to even); integers beyond
    the largest finite double round to an infinity. *)
Definition Z2F (z : Z) : float :=
  SF2Prim (binary_normalize prec emax z 0 false).

(** An integer is within the range of a double when its rounding is finite. *)
Definition fits_double (z : Z) : bool := negb (PrimFloat.is_infinity (Z2F z)).

(** The conversion an arithmetic operation applies to an [int] operand that
    meets a [float]: "OverflowError: int too large to convert to float". *)
Definition int_to_float (z : Z) : result float :=
  if fits_double z then Ok (Z2F z) else Raise OverflowError.

(** [float / float]: "ZeroDivisionError: float division by zero" for a zero
    divisor of either sign. *)
Definition float_div (a b : float) : result float :=
  if PrimFloat.eqb b 0%float then Raise ZeroDivisionError
  else Ok (PrimFloat.div a b).

(** [int / int] (true division): the correctly rounded quotient; the zero
    quotient carries the sign of [a < 0] xor [b < 0]. *)
Definition int_quotient (a b : Z) : float :=
  let '(q, e, l) := SFdiv_core_binary prec emax (Z.abs a) 0 (Z.abs b) 0 in
  SF2Prim (binary_round_aux prec emax (xorb (a <? 0) (b <? 0)) q e l).

Definition int_truediv (a b : Z) : result float :=
  if b =? 0 then Raise ZeroDivisionError
  else
    let q := int_quotient a b in
    if PrimFloat.is_infinity q then Raise OverflowError else Ok q.

Definition str_repeat (s : string) (n : Z) : string :=
  String.concat "" (replicate (Z.to_nat n) s).

Definition bytes_repeat (b : list Byte.byte) (n : Z) : list Byte.byte :=
  concat (replicate (Z.to_nat n) b).

(** [a * b]. *)
Definition py_mul (a b : pyval) : result pyval :=
  match as_num a, as_num b with
  | Some (NInt x), Some (NInt y) => Ok (PInt (x * y))
  | Some (NInt x), Some (NFloat g) =>
      f ← int_to_float x; Ok (PFloat (PrimFloat.mul f g))
  | Some (NFloat f), Some (NInt y) =>
      g ← int_to_float y; Ok (PFloat (PrimFloat.mul f g))
  | Some (NFloat f), Some (NFloat g) => Ok (PFloat (PrimFloat.mul f g))
  | Some (NInt n), None =>
      match b with
      | PStr s => Ok (PStr (str_repeat s n))
      | PBytes s => Ok (PBytes (bytes_repeat s n))
      | _ => Raise TypeError
      end
  | None, Some (NInt n) =>
      match a with
      | PStr s => Ok (PStr (str_repeat s n))
      | PBytes s => Ok (PBytes (bytes_repeat s n))
      | _ => Raise TypeError
      end
  | _, _ => Raise TypeError
  end.

(** [a + b]. *)
Definition py_add (a b : pyval) : result pyval :=
  match as_num a, as_num b with
  | Some (NInt x), Some (NInt y) => Ok (PInt (x + y))
  | Some (NInt x), Some (NFloat g) =>
      f ← int_to_float x; Ok (PFloat (PrimFloat.add f g))
  | Some (NFloat f), Some (NInt y) =>
      g ← int_to_float y; Ok (PFloat (PrimFloat.add f g))
  | Some (NFloat f), Some (NFloat g) => Ok (PFloat (PrimFloat.add f g))
  | None, None =>
      match a, b with
      | PStr s, PStr t => Ok (PStr (s +:+ t))
      | PBytes s, PBytes t => Ok (PBytes (s ++ t))
      | _, _ => Raise TypeError
      end
  | _, _ => Raise TypeError
  end.

(** [a / b]. An [int] dividend that meets a [float] is converted before the
    divisor is tested. An [int] divisor under a [float] raises
    [ZeroDivisionError] when it is zero (the one integer whose conversion is
    [0.0]) and is converted otherwise. *)
Definition py_truediv (a b : pyval) : result pyval :=
  match as_num a, as_num b with
  | Some (NInt x), Some (NInt y) => q ← int_truediv x y; Ok (PFloat q)
  | Some (NInt x), Some (NFloat g) =>
      f ← int_to_float x; q ← float_div f g; Ok (PFloat q)
  | Some (NFloat f), Some (NInt y) =>
      if y =? 0 then Raise ZeroDivisionError
      else g ← int_to_float y; Ok (PFloat (PrimFloat.div f g))
  | Some (NFloat f), Some (NFloat g) => q ← float_div f g; Ok (PFloat q)
  | _, _ => Raise TypeError
  end.

(** [sum(l)]: [acc = 0; for x in l: acc = acc + x]. *)
Fixpoint py_sum_from (acc : pyval) (l : list pyval) : result pyval :=
  match l with
  | [] => Ok acc
  | x :: l' => acc' ← py_add acc x; py_sum_from acc' l'
  end.

Definition py_sum (l : list pyval) : result pyval := py_sum_from (PInt 0) l.

(** [d[k]]. *)
Definition getitem (d : gmap string pyval) (k : string) : result pyval :=
  match d !! k with
  | Some v => Ok v
  | None => Raise (KeyError k)
  end.

(** [str(z)] for an [int]: decimal digits, a leading minus for negatives. *)
Definition str_int (z : Z) : string := pretty z.

(** [str(b)] for a [bool]. *)
Definition str_bool (b : bool) : string := if b then "True" else "False".

#[global] Arguments Z2F : simpl never.
#[global] Arguments int_to_float : simpl never.
#[global] Arguments int_truediv : simpl never.
#[global] Arguments float_div : simpl never.
#[global] Arguments py_mul : simpl never.
#[global] Arguments py_add : simpl never.
#[global] Arguments py_truediv : simpl never.

End Py.
Import Py.

(** ** The evaluation schedule *)

(** [evaluate_config(rnd)]. *)
Definition evaluate_config (rnd : Z) : gmap string pyval :=
  let val_steps := if rnd <? 4 then 5 else 10 in
  {[ "val_steps" := PInt val_steps ]}.

(** ** Metric aggregation *)

(** [weighted_average(metrics)]: the two list comprehensions are built in
    full, each left to right, before either [sum] runs. *)
Definition weighted_average (metrics : list (Z * gmap string pyval))
    : result (gmap string pyval) :=
  accuracies ← mapM (λ '(num_examples, m),
                       a ← getitem m "accuracy"; py_mul (PInt num_examples) a)
                    metrics;
  let examples := (λ '(num_examples, _), PInt num_examples) <$> metrics in
  s_accuracies ← py_sum accuracies;
  s_examples ← py_sum examples;
  accuracy ← py_truediv s_accuracies s_examples;
  Ok {[ "accuracy" := accuracy ]}.

(** ** Command-line arguments, round configuration and start-up *)

(** The [argparse] namespace [args], with the defaults of the parser. *)
Record Args : Type := {
  server_address : string;
  rounds : Z;
  min_sample_size : Z;
  min_num_clients : Z;
  model : string;
  dataset : string;
  num_workers : Z;
  pin_memory : bool
}.

Definition default_args (address : string) : Args :=
  {| server_address := address; rounds := 5; min_sample_size := 3;
     min_num_clients := 3; model := "AE"; dataset := "ENERGY";
     num_workers := 10; pin_memory := false |}.

(** The steps of [main] whose outcome rests on code outside the two source
    files, in program order: the calls into [flwr], [torch] and the [codes]
    package, and the unpacking and indexing of what they returned.
    - [ConfigureLogger]: [fl.common.logger.configure("server")];
    - [LoadDataset]: [load_dataset(args.dataset)];
    - [UnpackDataset]: [train_loader, test_loader, labels = _];
    - [LabelsShape]: [labels.shape[1]];
    - [LoadModel]: [load_model(args.model, _, config)];
    - [UnpackModel]: [model, optimizer, scheduler, _, _ = _];
    - [ModelWeights]:
      [[val.cpu().numpy() for _, val in model.state_dict().items()]];
    - [SimpleClientManager]: [fl.server.SimpleClientManager()];
    - [WeightsToParameters]: [fl.common.weights_to_parameters(model_weights)],
      the last argument of the strategy to be evaluated ([get_eval_fn] before
      it only builds the closure [evaluate]);
    - [FedAvg]: [fl.server.strategy.FedAvg(...)];
    - [NewServer]: [fl.server.Server(client_manager=_, strategy=_)];
    - [StartServer]: [fl.server.start_server(...)], inside which the rounds of
      federated learning run. *)
Inductive call : Type :=
  | ConfigureLogger (name : string)
  | LoadDataset (dataset : string)
  | UnpackDataset
  | LabelsShape
  | LoadModel (model : string) (config : gmap string pyval)
  | UnpackModel
  | ModelWeights
  | SimpleClientManager
  | WeightsToParameters
  | FedAvg (fraction_fit fraction_eval : float)
           (min_fit_clients min_eval_clients min_available_clients : Z)
  | NewServer
  | StartServer (address : string) (num_rounds : Z).

(** A computation of [main]: it may raise, and it extends the log of the
    steps taken so far. *)
Definition Run (A : Type) : Type := list call → result A * list call.

Definition run_bind {A B} (m : Run A) (k : A → Run B) : Run B := λ log,
  match m log with
  | (Ok a, log') => k a log'
  | (Raise e, log') => (Raise e, log')
  end.

Notation "m ;;; k" := (run_bind m (λ _, k))
  (at level 100, k at level 200, right associativity).

(** [assert cond, msg]. *)
Definition py_assert (cond : bool) (msg : string) : Run unit := λ log,
  (if cond then Ok () else Raise (AssertionError msg), log).

Definition round_started (log : list call) : Prop :=
  ∃ address num_rounds, StartServer address num_rounds ∈ log.

Section Server.
(** The module-level [args = parser.parse_args()]. *)
Variable args : Args.

(** How each step ends: normally, or with an exception. *)
Variable outcome : call → result unit.

Definition extern (c : call) : Run unit := λ log, (outcome c, log ++ [c]).

(** [fit_config(rnd)]. *)
Definition fit_config (rnd : Z) : gmap string pyval :=
  let config : gmap string pyval :=
    {[ "epoch_global" := PStr (str_int rnd);
       "epochs" := PStr (str_int 5);
       "num_workers" := PStr (str_int (num_workers args));
       "pin_memory" := PStr (str_bool (pin_memory args));
       "model" := PStr (model args);
       "dataset" := PStr (dataset args) ]} in
  config.

(** [main()]. *)
Definition main : Run unit :=
  py_assert (min_sample_size args <=? min_num_clients args)
            "Num_clients shouldn't be lower than min_sample_size" ;;;
  extern (ConfigureLogger "server") ;;;
  let config : gmap string pyval :=
    {[ "learning_rate" := PFloat 0.0001;
       "weight_decay" := PFloat 1e-6;
       "num_window" := PInt 10 ]} in
  extern (LoadDataset (dataset args)) ;;;
  extern UnpackDataset ;;;
  extern LabelsShape ;;;
  extern (LoadModel (model args) config) ;;;
  extern UnpackModel ;;;
  extern ModelWeights ;;;
  extern SimpleClientManager ;;;
  extern WeightsToParameters ;;;
  extern (FedAvg 0.2 0.2 (min_sample_size args) (min_sample_size args)
                 (min_num_clients args)) ;;;
  extern NewServer ;;;
  extern (StartServer (server_address args) (rounds args)).
End Server.

(** ** Centralized evaluation *)

Section CentralEvaluation.
(** Model weights, per-window loss vectors and label vectors are NumPy
    arrays that this file never looks into. *)
Variables Weights Losses Labels : Type.

(** [set_weights], the first batch of each loader, the windowing of the
    [AE] model, the two inference passes of [backprop] (test, then train)
    and [np.mean(_, axis=1)]: the pair [(lossTfinal, lossFinal)]. *)
Variable window_losses : Weights → result (Losses * Losses).

(** [(np.sum(labels, axis=1) >= 1) + 0]. *)
Variable labelsFinal : Labels.

(** The scoring collaborator [pot_eval], first component of its result. *)
Variable pot_eval : Losses → Losses → Labels → result (gmap string pyval).

(** [np.sum]. *)
Variable np_sum : Losses → float.

(** The closure [evaluate(weights)] that [get_eval_fn] returns. *)
Definition evaluate (weights : Weights) : result (float * gmap string pyval) :=
  '(lossTfinal, lossFinal) ← window_losses weights;
  scores ← pot_eval lossTfinal lossFinal labelsFinal;
  tp ← getitem scores "TP";
  tn ← getitem scores "TN";
  correct ← py_add tp tn;
  tp' ← getitem scores "TP";
  tn' ← getitem scores "TN";
  d1 ← py_add tp' tn';
  fp ← getitem scores "FP";
  d2 ← py_add d1 fp;
  fn ← getitem scores "FN";
  samples ← py_add d2 fn;
  accuracy ← py_truediv correct samples;
  let ls := np_sum lossFinal in
  Ok (ls, {[ "accuracy" := accuracy ]}).
End CentralEvaluation.

Arguments evaluate {Weights Losses Labels}.

(** *** Confusion counts that are NumPy scalars

    Line 171 adds and divides whatever [pot_eval] stored under [TP], [TN],
    [FP] and [FN]. [evaluate] above reads that line for Python numbers. A
    scorer that counts with [np.sum] over NumPy arrays returns [np.int64]
    scalars, whose operators are NumPy's. *)

Module Np.

(** An [np.int64] scalar, a value in the range [-2^63 .. 2^63 - 1]. *)
Inductive int64 : Type :=
  | Int64 (z : Z).

(** Reduction to the signed 64-bit range. *)
Definition wrap (z : Z) : Z := (z + 2 ^ 63) mod 2 ^ 64 - 2 ^ 63.

(** [a + b]: the sum wraps around; an overflow gives a [RuntimeWarning], no
    exception. *)
Definition add (a b : int64) : result int64 :=
  match a, b with
  | Int64 x, Int64 y => Ok (Int64 (wrap (x + y)))
  end.

(** [a / b] ([np.true_divide]): both operands are cast to [float64] and
    divided as IEEE doubles. A zero divisor gives an infinity or [nan] and a
    [RuntimeWarning], no exception. The [np.float64] result, a subclass of
    [float], is a [PFloat]. *)
Definition truediv (a b : int64) : result pyval :=
  match a, b with
  | Int64 x, Int64 y => Ok (PFloat (PrimFloat.div (Z2F x) (Z2F y)))
  end.

End Np.

(** [d[k]] for a dictionary of any values. *)
Definition getitem_of {A : Type} (d : gmap string A) (k : string) : result A :=
  match d !! k with
  | Some v => Ok v
  | None => Raise (KeyError k)
  end.

Section CentralEvaluationOn.
Variables Weights Losses Labels : Type.

(** The type of the values [pot_eval] stores, with its [+] and [/]. *)
Variable Count : Type.
Variable add : Count → Count → result Count.
Variable truediv : Count → Count → result pyval.

Variable window_losses : Weights → result (Losses * Losses).
Variable labelsFinal : Labels.
Variable pot_eval : Losses → Losses → Labels → result (gmap string Count).
Variable np_sum : Losses → float.

(** The closure [evaluate(weights)], over the operators of the counts. *)
Definition evaluate_on (weights : Weights)
    : result (float * gmap string pyval) :=
  '(lossTfinal, lossFinal) ← window_losses weights;
  scores ← pot_eval lossTfinal lossFinal labelsFinal;
  tp ← getitem_of scores "TP";
  tn ← getitem_of scores "TN";
  correct ← add tp tn;
  tp' ← getitem_of scores "TP";
  tn' ← getitem_of scores "TN";
  d1 ← add tp' tn';
  fp ← getitem_of scores "FP";
  d2 ← add d1 fp;
  fn ← getitem_of scores "FN";
  samples ← add d2 fn;
  accuracy ← truediv correct samples;
  let ls := np_sum lossFinal in
  Ok (ls, {[ "accuracy" := accuracy ]}).
End CentralEvaluationOn.

Arguments evaluate_on {Weights Losses Labels Count}.

(** ** Loading weights into the reference model *)

Section SetWeights.
(** NumPy arrays and torch tensors are opaque. *)
Variables Array Tensor : Type.

(** [torch.tensor(np.atleast_1d(v))]. *)
Variable to_tensor : Array → Tensor.

(** [model.load_state_dict(_, strict=True)] of the reference model. *)
Variable load_state_dict : gmap string Tensor → result unit.

(** The dictionary comprehension of [set_weights] over
    [zip(model.state_dict().keys(), weights)]: [zip] stops at the shorter
    list, and a key met again takes the later value. [keys] stands for
    [model.state_dict().keys()]. *)
Definition state_dict (keys : list string) (weights : list Array)
    : gmap string Tensor :=
  fold_left (λ d kv, <[kv.1 := to_tensor kv.2]> d) (zip keys weights) ∅.

(** [set_weights(model, weights)]. *)
Definition set_weights (keys : list string) (weights : list Array)
    : result unit :=
  load_state_dict (state_dict keys weights).
End SetWeights.

Arguments state_dict {Array Tensor}.
Arguments set_weights {Array Tensor}.

(** ** The table of tuned configurations ([config.py]) *)

Module Config.

(** The module constants [num_epochs] and [lr]. *)
Definition num_epochs : Z := 100.
Definition lr : float := 1e-3%float.

(** [get_best_config(algo_name)]. The module-level dictionary [best_configs]
    (empty when the module is loaded) is threaded through: every call rebinds
    the four entries and then indexes the dictionary. *)
Definition get_best_config (algo_name : string)
    (best_configs : gmap string (gmap string pyval))
    : result (gmap string pyval) * gmap string (gmap string pyval) :=
  let best_configs :=
    <[ "USAD" := {[ "num_epochs" := PInt 10;
                    "num_hidden" := PInt 16;
                    "latent" := PInt 5;
                    "learning_rate" := PFloat 0.0001;
                    "weight_decay" := PFloat 1e-5;
                    "num_window" := PInt 10 ]} ]> best_configs in
  let best_configs :=
    <[ "AE" := {[ "num_epochs" := PInt 15;
                  "learning_rate" := PFloat 0.0001;
                  "weight_decay" := PFloat 1e-5;
                  "num_window" := PInt 5 ]} ]> best_configs in
  let best_configs :=
    <[ "LSTM_AD" := {[ "beta" := PFloat 0.01;
                       "batch_size" := PInt 50;
                       "embedding_dim" := PInt 16;
                       "num_epochs" := PInt 5;
                       "num_hidden" := PInt 32;
                       "learning_rate" := PFloat 0.0001;
                       "layers" := PInt 3;
                       "weight_decay" := PFloat 1e-5 ]} ]> best_configs in
  let best_configs :=
    <[ "LSTM_Univariate" := {[ "beta" := PFloat 0.01;
                               "batch_size" := PInt 50;
                               "embedding_dim" := PInt 16;
                               "num_epochs" := PInt 1;
                               "num_hidden" := PInt 32;
                               "learning_rate" := PFloat 0.0001;
                               "layers" := PInt 3;
                               "weight_decay" := PFloat 1e-5 ]} ]>
      best_configs in
  (match best_configs !! algo_name with
   | Some config => Ok config
   | None => Raise (KeyError algo_name)
   end,
   best_configs).

End Config.

(** ** Vocabulary of the properties *)

(** The message of the start-up assertion. *)
Definition assertion_message : string :=
  "Num_clients shouldn't be lower than min_sample_size".

(** [[num_examples * m["accuracy"] for num_examples, m in metrics]], the first
    comprehension of [weighted_average]. *)
Definition accuracies_of (metrics : list (Z * gmap string pyval))
    : result (list pyval) :=
  mapM (λ '(num_examples, m),
          a ← getitem m "accuracy"; py_mul (PInt num_examples) a)
       metrics.

(** [sum(examples)] as an integer. *)
Definition total_examples (metrics : list (Z * gmap string pyval)) : Z :=
  foldr Z.add 0 (metrics.*1).

(** The weighted mean of the reports [(example_count, accuracy)] in binary64
    arithmetic: the sum of the products over the sum of the counts, the
    products added from left to right. *)
Definition spec_weighted_mean (reports : list (Z * float)) : float :=
  PrimFloat.div
    (fold_left PrimFloat.add (map (λ r, PrimFloat.mul (Z2F r.1) r.2) reports)
               0%float)
    (Z2F (foldr Z.add 0 (reports.*1))).

(** [reports] lists the example count and the float accuracy of every entry
    of [metrics]. *)
Definition reports_of (metrics : list (Z * gmap string pyval))
    (reports : list (Z * float)) : Prop :=
  Forall2 (λ cm r, cm.1 = r.1 ∧ cm.2 !! "accuracy" = Some (PFloat r.2))
          metrics reports.

(** The entry has no [accuracy] key. *)
Definition lacks_accuracy (cm : Z * gmap string pyval) : Prop :=
  cm.2 !! "accuracy" = None.

(** The count is within the range of a double, and the entry either has no
    [accuracy] key or binds it to a float. *)
Definition float_or_missing (cm : Z * gmap string pyval) : Prop :=
  fits_double cm.1 = true ∧
  (cm.2 !! "accuracy" = None ∨ ∃ a, cm.2 !! "accuracy" = Some (PFloat a)).




(** The steps of a run of [main] that reaches [start_server], in program
    order. *)
Definition startup_calls (args : Args) : list call :=
  [ ConfigureLogger "server";
    LoadDataset (dataset args);
    UnpackDataset;
    LabelsShape;
    LoadModel (model args)
      {[ "learning_rate" := PFloat 0.0001;
         "weight_decay" := PFloat 1e-6;
         "num_window" := PInt 10 ]};
    UnpackModel;
    ModelWeights;
    SimpleClientManager;
    WeightsToParameters;
    FedAvg 0.2 0.2 (min_sample_size args) (min_sample_size args)
           (min_num_clients args);
    NewServer;
    StartServer (server_address args) (rounds args) ].

(** The entry binds [accuracy] to a value that is not a number. *)
Definition non_numeric_report (cm : Z * gmap string pyval) : Prop :=
  ∃ v, cm.2 !! "accuracy" = Some v ∧ as_num v = None.

(** Two collections agree on the example counts and on the [accuracy]
    bindings, entry by entry. *)
Definition same_accuracy_reports (l l' : list (Z * gmap string pyval)) : Prop :=
  Forall2 (λ cm cm', cm.1 = cm'.1 ∧ cm.2 !! "accuracy" = cm'.2 !! "accuracy")
          l l'.

(** The keys [evaluate] reads from the scores, in the order it first reads
    them. *)
Definition count_keys : list string := [ "TP"; "TN"; "FP"; "FN" ].

(** [k] is the first count key the scores lack, the keys before it being
    bound to integers. *)
Definition first_missing_count (scores : gmap string pyval) (k : string)
    : Prop :=
  ∃ before after,
    count_keys = before ++ k :: after ∧
    scores !! k = None ∧
    Forall (λ k', ∃ z, scores !! k' = Some (PInt z)) before.

(** The entry reports a float accuracy with a count in the range of a
    double. *)
Definition float_report (cm : Z * gmap string pyval) : Prop :=
  fits_double cm.1 = true ∧ ∃ a, cm.2 !! "accuracy" = Some (PFloat a).

(** The names [get_best_config] binds. *)
Definition known_algorithms : list string :=
  [ "USAD"; "AE"; "LSTM_AD"; "LSTM_Univariate" ].

(** The four configurations as one call binds them in the empty
    dictionary. *)
Definition tuned_table : gmap string (gmap string pyval) :=
  (Config.get_best_config "" ∅).2.

(** ** Sample inputs *)

(** Thresholds that contradict each other: three clients to sample, two
    required to be available. *)
Definition contradictory_args : Args :=
  {| server_address := "[::]:8080"; rounds := 5; min_sample_size := 3;
     min_num_clients := 2; model := "AE"; dataset := "ENERGY";
     num_workers := 10; pin_memory := false |}.

(** Scores without the false negatives. *)
Definition scores_without_fn : gmap string pyval :=
  {[ "TP" := PInt 40; "TN" := PInt 50; "FP" := PInt 5 ]}.

(** The counts 40, 50, 5, 5 beside the other figures a scorer reports. *)
Definition verbose_scores : gmap string pyval :=
  {[ "f1" := PFloat 0.8; "precision" := PFloat 0.75; "TP" := PInt 40;
     "TN" := PInt 50; "FP" := PInt 5; "FN" := PInt 5;
     "threshold" := PFloat 0.125 ]}.

(** The counts of [counts_40_50_5_5] with the two classes exchanged. *)
Definition counts_50_40_5_5 : gmap string pyval :=
  {[ "TP" := PInt 50; "TN" := PInt 40; "FP" := PInt 5; "FN" := PInt 5 ]}.

(** The scenario with a loss beside each accuracy. *)
Definition scenario_with_losses : list (Z * gmap string pyval) :=
  [ (100, {[ "accuracy" := PFloat 0.8; "loss" := PFloat 0.5 ]});
    (200, {[ "loss" := PFloat 0.25; "accuracy" := PFloat 0.9 ]});
    (100, {[ "accuracy" := PFloat 0.7; "loss" := PFloat 2 ]}) ].

(** A reference model with three parameters, arrays as lists of integers, and
    a stand-in for strict loading that raises for the first parameter name
    the state dictionary lacks. *)
Definition sample_keys : list string :=
  [ "encoder.weight"; "encoder.bias"; "decoder.weight" ].

Definition sample_arrays : list (list Z) := [ [1; 2]; [3]; [4; 5] ].

Definition sample_strict_load (d : gmap string (list Z)) : result unit :=
  match filter (λ k, d !! k = None) sample_keys with
  | [] => Ok ()
  | k :: _ => Raise (KeyError k)
  end.

(** Collaborators among which the dataset loader raises. *)
Definition dataset_missing (c : call) : result unit :=
  match c with
  | LoadDataset name => Raise (KeyError name)
  | _ => Ok ()
  end.

(** The three participants of the end-to-end scenario. *)
Definition scenario : list (Z * gmap string pyval) :=
  [ (100, {[ "accuracy" := PFloat 0.8 ]});
    (200, {[ "accuracy" := PFloat 0.9 ]});
    (100, {[ "accuracy" := PFloat 0.7 ]}) ].

Definition scenario_reports : list (Z * float) :=
  [ (100, 0.8%float); (200, 0.9%float); (100, 0.7%float) ].




(** Participants that report integer accuracies, in two orders. *)
Definition integer_metrics : list (Z * gmap string pyval) :=
  [ (3, {[ "accuracy" := PInt 1 ]});
    (1, {[ "accuracy" := PBool false ]});
    (4, {[ "accuracy" := PInt 1 ]}) ].


(** Stand-in collaborators for a run of [evaluate]: losses are lists of
    floats, the scorer returns fixed confusion counts. *)
Definition counts_40_50_5_5 : gmap string pyval :=
  {[ "TP" := PInt 40; "TN" := PInt 50; "FP" := PInt 5; "FN" := PInt 5 ]}.

Definition no_samples : gmap string pyval :=
  {[ "TP" := PInt 0; "TN" := PInt 0; "FP" := PInt 0; "FN" := PInt 0 ]}.

(** The same counts as [np.int64] scalars. *)
Definition np_counts_40_50_5_5 : gmap string Np.int64 :=
  {[ "TP" := Np.Int64 40; "TN" := Np.Int64 50; "FP" := Np.Int64 5;
     "FN" := Np.Int64 5 ]}.

Definition np_no_samples : gmap string Np.int64 :=
  {[ "TP" := Np.Int64 0; "TN" := Np.Int64 0; "FP" := Np.Int64 0;
     "FN" := Np.Int64 0 ]}.

Definition sample_losses (_ : unit) : result (list float * list float) :=
  Ok ([0.25; 0.5]%float, [0.125; 0.25; 0.5]%float).

Definition sum_floats (l : list float) : float :=
  fold_left PrimFloat.add l 0%float.

(** * Properties *)

(** ** The evaluation schedule *)

Lemma evaluate_config_cases (rnd : Z) :
  evaluate_config rnd =
    {[ "val_steps" := PInt (if rnd <? 4 then 5 else 10) ]}.
Proof. reflexivity. Qed.

(** C1: for a round index 1, 2 or 3 the mapping returned by
    [evaluate_config] has [val_steps] 5, and for every round index from 4 on
    it has [val_steps] 10. *)
Theorem evaluate_config_schedule (r : Z) :
  (1 ≤ r ≤ 3 → evaluate_config r !! "val_steps" = Some (PInt 5)) ∧
  (4 ≤ r → evaluate_config r !! "val_steps" = Some (PInt 10)).
Proof.
  rewrite evaluate_config_cases, lookup_singleton_eq.
  destruct (Z.ltb_spec r 4); split; intros; first [ reflexivity | lia ].
Qed.

Lemma evaluate_config_schedule_witness :
  evaluate_config 2 !! "val_steps" = Some (PInt 5) ∧
  evaluate_config 5 !! "val_steps" = Some (PInt 10).
Proof.
  split.
  - apply (proj1 (evaluate_config_schedule 2)). lia.
  - apply (proj2 (evaluate_config_schedule 5)). lia.
Defined.

(** C9: below round index 4 (zero and the negative integers included) the
    schedule returns exactly the mapping [{"val_steps": 5}]; the function is
    defined on every integer. *)
Theorem evaluate_config_below_four (r : Z) :
  r < 4 → evaluate_config r = {[ "val_steps" := PInt 5 ]}.
Proof.
  intros Hr. rewrite evaluate_config_cases.
  destruct (Z.ltb_spec r 4); [ reflexivity | lia ].
Qed.

Lemma evaluate_config_below_four_witness :
  evaluate_config 0 = {[ "val_steps" := PInt 5 ]} ∧
  evaluate_config (-7) = {[ "val_steps" := PInt 5 ]}.
Proof.
  split; apply evaluate_config_below_four; lia.
Defined.

(** The schedule never decreases with the round index. *)
Lemma evaluate_config_monotone (r r' : Z) (v v' : Z) :
  r ≤ r' →
  evaluate_config r !! "val_steps" = Some (PInt v) →
  evaluate_config r' !! "val_steps" = Some (PInt v') →
  v ≤ v'.
Proof.
  rewrite !evaluate_config_cases, !lookup_singleton_eq.
  intros Hle [= <-] [= <-].
  destruct (Z.ltb_spec r 4), (Z.ltb_spec r' 4); lia.
Qed.

(** ** Start-up *)

(** C8: when [min_sample_size] exceeds [min_num_clients], [main] raises the
    assertion error before it has called any collaborator; the server is never
    started, so no round runs. *)
Theorem main_fails_fast (args : Args) (outcome : call → result unit) :
  min_num_clients args < min_sample_size args →
  main args outcome [] = (Raise (AssertionError assertion_message), []) ∧
  ¬ round_started (main args outcome []).2.
Proof.
  intros Hlt.
  assert (Hmain : main args outcome []
                  = (Raise (AssertionError assertion_message), [])).
  { unfold main, run_bind, py_assert.
    destruct (Z.leb_spec (min_sample_size args) (min_num_clients args));
      [ lia | reflexivity ]. }
  split; [ exact Hmain | ].
  rewrite Hmain. intros (address & n & Hin). inversion Hin.
Qed.

Lemma main_fails_fast_witness :
  main contradictory_args (λ _, Ok ()) []
    = (Raise (AssertionError assertion_message), []) ∧
  ¬ round_started (main contradictory_args (λ _, Ok ()) []).2.
Proof.
  apply (main_fails_fast contradictory_args (λ _, Ok ())).
  simpl. lia.
Defined.

(** With consistent thresholds and collaborators that do not raise, [main]
    reaches [start_server] with the configured number of rounds. *)
Lemma main_starts_server (args : Args) :
  min_sample_size args ≤ min_num_clients args →
  ∃ log, main args (λ _, Ok ()) []
         = (Ok (), log ++ [StartServer (server_address args) (rounds args)]).
Proof.
  intros Hle. unfold main, run_bind, py_assert, extern.
  destruct (Z.leb_spec (min_sample_size args) (min_num_clients args));
    [ | lia ].
  simpl. eexists [_; _; _; _; _; _; _; _; _; _; _]. reflexivity.
Qed.

(** ** Round configuration *)

(** [str] of an [int] determines the [int]. *)
Lemma str_int_inj (x y : Z) : str_int x = str_int y → x = y.
Proof. unfold str_int. apply (inj pretty). Qed.

Example str_int_examples :
  str_int 0 = "0" ∧ str_int 42 = "42" ∧ str_int (-12) = "-12".
Proof. repeat split; reflexivity. Qed.

(** C6, as stated, fails: in [fit_config] every value is a string, the round
    index and the other options are passed through [str]. At round 3,
    [epoch_global] is the string ["3"], not the integer 3, and [pin_memory]
    is the string ["False"], not a boolean. *)
Lemma fit_config_values_are_strings :
  fit_config (default_args "[::]:8080") 3 !! "epoch_global" = Some (PStr "3") ∧
  fit_config (default_args "[::]:8080") 3 !! "epoch_global" ≠ Some (PInt 3) ∧
  fit_config (default_args "[::]:8080") 3 !! "pin_memory" = Some (PStr "False") ∧
  fit_config (default_args "[::]:8080") 3 !! "pin_memory" ≠ Some (PBool false).
Proof.
  assert (H1 : fit_config (default_args "[::]:8080") 3 !! "epoch_global"
               = Some (PStr "3")) by (vm_compute; reflexivity).
  assert (H2 : fit_config (default_args "[::]:8080") 3 !! "pin_memory"
               = Some (PStr "False")) by (vm_compute; reflexivity).
  rewrite H1, H2. repeat split; congruence.
Qed.

(** C6 (amended): [fit_config] returns a mapping with exactly the six
    recognized options, each bound to a string: [epoch_global] is the decimal
    rendering of the round index (which determines the index), [epochs] is
    the constant ["5"], [num_workers] the decimal rendering of the configured
    worker count, [pin_memory] is ["True"] or ["False"], and [model] and
    [dataset] are the configured identifiers. *)
Theorem fit_config_options (args : Args) (r : Z) :
  dom (fit_config args r)
    = ({[ "epoch_global"; "epochs"; "num_workers"; "pin_memory"; "model";
          "dataset" ]} : gset string) ∧
  fit_config args r !! "epoch_global" = Some (PStr (str_int r)) ∧
  fit_config args r !! "epochs" = Some (PStr "5") ∧
  fit_config args r !! "num_workers" = Some (PStr (str_int (num_workers args))) ∧
  fit_config args r !! "pin_memory"
    = Some (PStr (if pin_memory args then "True" else "False")) ∧
  fit_config args r !! "model" = Some (PStr (model args)) ∧
  fit_config args r !! "dataset" = Some (PStr (dataset args)) ∧
  (∀ r', fit_config args r' !! "epoch_global"
         = fit_config args r !! "epoch_global" → r' = r).
Proof.
  assert (Hepoch : ∀ x, fit_config args x !! "epoch_global"
                        = Some (PStr (str_int x))).
  { intros x. unfold fit_config. by simplify_map_eq. }
  split; [ | split; [ apply Hepoch | ] ].
  - unfold fit_config. rewrite !dom_insert_L, dom_singleton_L. set_solver.
  - repeat split; try (unfold fit_config; by simplify_map_eq).
    intros r'. rewrite !Hepoch. intros [= Heq]. by apply str_int_inj.
Qed.

(** ** Metric aggregation *)

(** *** Python arithmetic on homogeneous lists *)

Lemma int_to_float_0 : int_to_float 0 = Ok 0%float.
Proof. vm_compute. reflexivity. Qed.

Lemma int_to_float_fits (z : Z) :
  fits_double z = true → int_to_float z = Ok (Z2F z).
Proof. unfold int_to_float. by intros ->. Qed.

Example fits_double_range :
  fits_double (2 ^ 63) = true ∧
  fits_double (2 ^ 1024 - 2 ^ 970 - 1) = true ∧
  fits_double (2 ^ 1024 - 2 ^ 970) = false.
Proof. repeat split; vm_compute; reflexivity. Qed.

Example int_truediv_examples :
  int_truediv 90 100 = Ok 0.9%float ∧
  int_truediv 1 3 = Ok (1 / 3)%float ∧
  int_truediv 0 (-5) = Ok (-0)%float ∧
  int_truediv 7 0 = Raise ZeroDivisionError ∧
  int_truediv (2 ^ 1024) 1 = Raise OverflowError.
Proof. repeat split; vm_compute; reflexivity. Qed.

(** Python's results on a few mixed operands: the conversion of the dividend
    comes before the zero test, an integer divisor beyond the doubles
    overflows, [sum] loses the sign of a lone negative zero, and a string
    product cannot be summed. *)
Example py_arithmetic_examples :
  py_truediv (PInt (10 ^ 400)) (PFloat 0) = Raise OverflowError ∧
  py_truediv (PFloat 1.5) (PInt (2 ^ 2000)) = Raise OverflowError ∧
  py_truediv (PFloat 1.5) (PInt 0) = Raise ZeroDivisionError ∧
  py_sum [PFloat (-0)] = Ok (PFloat 0) ∧
  py_mul (PInt 2) (PStr "ab") = Ok (PStr "abab") ∧
  py_sum [PStr "abab"] = Raise TypeError.
Proof. repeat split; vm_compute; reflexivity. Qed.

Lemma py_sum_from_cons (acc x : pyval) (l : list pyval) :
  py_sum_from acc (x :: l) = acc' ← py_add acc x; py_sum_from acc' l.
Proof. reflexivity. Qed.

Lemma py_add_ints (x y : Z) : py_add (PInt x) (PInt y) = Ok (PInt (x + y)).
Proof. reflexivity. Qed.

Lemma py_add_floats (f g : float) :
  py_add (PFloat f) (PFloat g) = Ok (PFloat (f + g)%float).
Proof. reflexivity. Qed.

Lemma py_add_int_float (x : Z) (g : float) :
  py_add (PInt x) (PFloat g) = f ← int_to_float x; Ok (PFloat (f + g)%float).
Proof. reflexivity. Qed.

Lemma py_mul_int_float (x : Z) (g : float) :
  py_mul (PInt x) (PFloat g) = f ← int_to_float x; Ok (PFloat (f * g)%float).
Proof. reflexivity. Qed.

Lemma py_mul_ints (x y : Z) : py_mul (PInt x) (PInt y) = Ok (PInt (x * y)).
Proof. reflexivity. Qed.

Lemma py_sum_from_ints (zs : list Z) (acc : Z) :
  py_sum_from (PInt acc) (PInt <$> zs) = Ok (PInt (acc + foldr Z.add 0 zs)).
Proof.
  revert acc. induction zs as [ | z zs IH ]; intros acc.
  - cbn. by rewrite Z.add_0_r.
  - rewrite fmap_cons, py_sum_from_cons, py_add_ints. cbn [mbind result_bind].
    rewrite IH. cbn. by rewrite Z.add_assoc.
Qed.

Lemma py_sum_ints (zs : list Z) :
  py_sum (PInt <$> zs) = Ok (PInt (foldr Z.add 0 zs)).
Proof. unfold py_sum. by rewrite py_sum_from_ints. Qed.

Lemma py_sum_from_floats (fs : list float) (acc : float) :
  py_sum_from (PFloat acc) (PFloat <$> fs)
    = Ok (PFloat (fold_left PrimFloat.add fs acc)).
Proof.
  revert acc. induction fs as [ | f fs IH ]; intros acc; [ reflexivity | ].
  rewrite fmap_cons, py_sum_from_cons, py_add_floats. cbn [mbind result_bind].
  apply IH.
Qed.

(** [sum] starts from the integer 0, which the first float turns into
    [0.0]. *)
Lemma py_sum_floats (fs : list float) :
  fs ≠ [] →
  py_sum (PFloat <$> fs) = Ok (PFloat (fold_left PrimFloat.add fs 0%float)).
Proof.
  destruct fs as [ | f fs ]; [ done | intros _ ].
  unfold py_sum.
  rewrite fmap_cons, py_sum_from_cons, py_add_int_float, int_to_float_0.
  cbn [mbind result_bind fold_left]. apply py_sum_from_floats.
Qed.

(** *** The two list comprehensions *)

Lemma weighted_average_unfold (metrics : list (Z * gmap string pyval)) :
  weighted_average metrics =
    accuracies ← accuracies_of metrics;
    s_accuracies ← py_sum accuracies;
    s_examples ← py_sum (PInt <$> metrics.*1);
    accuracy ← py_truediv s_accuracies s_examples;
    Ok {[ "accuracy" := accuracy ]}.
Proof.
  unfold weighted_average, accuracies_of.
  replace ((λ '(num_examples, _), PInt num_examples) <$> metrics)
    with (PInt <$> metrics.*1); [ reflexivity | ].
  rewrite <- list_fmap_compose. apply list_fmap_ext. by intros _ [n m] _.
Qed.

Lemma accuracies_of_cons (n : Z) (m : gmap string pyval)
    (metrics : list (Z * gmap string pyval)) :
  accuracies_of ((n, m) :: metrics) =
    y ← (a ← getitem m "accuracy"; py_mul (PInt n) a);
    k ← accuracies_of metrics;
    Ok (y :: k).
Proof. reflexivity. Qed.

Lemma getitem_some (d : gmap string pyval) (k : string) (v : pyval) :
  d !! k = Some v → getitem d k = Ok v.
Proof. unfold getitem. by intros ->. Qed.

Lemma getitem_none (d : gmap string pyval) (k : string) :
  d !! k = None → getitem d k = Raise (KeyError k).
Proof. unfold getitem. by intros ->. Qed.

Lemma py_sum_total (metrics : list (Z * gmap string pyval)) :
  py_sum (PInt <$> metrics.*1) = Ok (PInt (total_examples metrics)).
Proof. apply py_sum_ints. Qed.

Lemma accuracies_of_floats (metrics : list (Z * gmap string pyval))
    (reports : list (Z * float)) :
  reports_of metrics reports →
  Forall (λ cm, fits_double cm.1 = true) metrics →
  accuracies_of metrics
    = Ok (PFloat <$> map (λ r, PrimFloat.mul (Z2F r.1) r.2) reports).
Proof.
  induction 1 as [ | [n m] [n' a] metrics reports [Hn Ha] _ IH ];
    intros Hfit; [ reflexivity | ].
  simpl in Hn, Ha. subst n'.
  apply Forall_cons in Hfit as [Hn Hfit]. simpl in Hn.
  rewrite accuracies_of_cons, (getitem_some _ _ _ Ha). cbn [mbind result_bind].
  rewrite py_mul_int_float, (int_to_float_fits _ Hn), (IH Hfit).
  reflexivity.
Qed.

Lemma reports_of_counts (metrics : list (Z * gmap string pyval))
    (reports : list (Z * float)) :
  reports_of metrics reports → reports.*1 = metrics.*1.
Proof.
  induction 1 as [ | [n m] [n' a] metrics reports [Hn _] _ IH ];
    [ reflexivity | ].
  rewrite !fmap_cons. simpl in Hn. by rewrite IH, Hn.
Qed.

Lemma py_truediv_float_int (s : float) (n : Z) :
  n ≠ 0 → fits_double n = true →
  py_truediv (PFloat s) (PInt n) = Ok (PFloat (s / Z2F n)%float).
Proof.
  intros Hn Hfit. unfold py_truediv. cbn [as_num].
  destruct (Z.eqb_spec n 0); [ done | ].
  by rewrite (int_to_float_fits _ Hfit).
Qed.

(** C2: for a non-empty collection of client results with a positive total
    example count (each entry reporting a float accuracy, the counts within
    the range of a double), [weighted_average] returns the accuracy
    [sum(n_i * a_i) / sum(n_i)]; for the reports (100, 0.8), (200, 0.9),
    (100, 0.7) that is 0.825. *)
Theorem weighted_average_weighted_mean :
  (∀ (metrics : list (Z * gmap string pyval)) (reports : list (Z * float)),
     reports_of metrics reports →
     metrics ≠ [] →
     0 < total_examples metrics →
     Forall (λ cm, fits_double cm.1 = true) metrics →
     fits_double (total_examples metrics) = true →
     weighted_average metrics
       = Ok {[ "accuracy" := PFloat (spec_weighted_mean reports) ]}) ∧
  weighted_average scenario = Ok {[ "accuracy" := PFloat 0.825 ]}.
Proof.
  split; [ | vm_compute; reflexivity ].
  intros metrics reports Hrep Hne Hpos Hfit Htot.
  rewrite weighted_average_unfold, (accuracies_of_floats _ _ Hrep Hfit).
  cbn [mbind result_bind].
  rewrite py_sum_floats.
  2: { destruct Hrep; [ done | discriminate ]. }
  cbn [mbind result_bind]. rewrite py_sum_total. cbn [mbind result_bind].
  rewrite py_truediv_float_int by (done || lia).
  unfold spec_weighted_mean, total_examples.
  by rewrite (reports_of_counts _ _ Hrep).
Qed.

Lemma weighted_average_weighted_mean_witness :
  weighted_average scenario
    = Ok {[ "accuracy" := PFloat (spec_weighted_mean scenario_reports) ]}.
Proof.
  apply (proj1 weighted_average_weighted_mean scenario).
  - repeat constructor.
  - discriminate.
  - vm_compute. reflexivity.
  - repeat constructor.
  - vm_compute. reflexivity.
Defined.

(** *** Division by a zero total *)

Lemma fails_bind {A B} (r : result A) (k : A → result B) :
  fails r → fails (r ≫= k).
Proof. by destruct r. Qed.

Lemma py_truediv_by_zero (v : pyval) : fails (py_truediv v (PInt 0)).
Proof. by destruct v. Qed.

Lemma py_truediv_float_by_zero (s : float) :
  py_truediv (PFloat s) (PInt 0) = Raise ZeroDivisionError.
Proof. reflexivity. Qed.

Lemma py_truediv_int_by_zero (x : Z) :
  py_truediv (PInt x) (PInt 0) = Raise ZeroDivisionError.
Proof. reflexivity. Qed.

(** C3, as stated, fails: the empty collection and a collection of total
    example count zero raise the same exception, nothing in
    [weighted_average] tells them apart; and a zero total whose entry lacks
    the key raises [KeyError] before any division. *)
Lemma empty_and_zero_total_raise_alike :
  weighted_average [] = Raise ZeroDivisionError ∧
  weighted_average [ (0, {[ "accuracy" := PFloat 0.5 ]}) ]
    = Raise ZeroDivisionError ∧
  weighted_average [ (0, ∅) ] = Raise (KeyError "accuracy").
Proof. repeat split; vm_compute; reflexivity. Qed.

(** C3 (amended): aggregating the empty collection raises
    [ZeroDivisionError], the exception of a zero total; every collection
    whose example counts add up to zero makes [weighted_average] raise, and
    the exception is [ZeroDivisionError] when each entry reports a float
    accuracy with a count in the range of a double. No such input returns a
    value. *)
Theorem weighted_average_zero_total :
  weighted_average [] = Raise ZeroDivisionError ∧
  (∀ metrics : list (Z * gmap string pyval),
     total_examples metrics = 0 → fails (weighted_average metrics)) ∧
  (∀ (metrics : list (Z * gmap string pyval)) (reports : list (Z * float)),
     reports_of metrics reports →
     Forall (λ cm, fits_double cm.1 = true) metrics →
     total_examples metrics = 0 →
     weighted_average metrics = Raise ZeroDivisionError).
Proof.
  split; [ reflexivity | split ].
  - intros metrics Htot. rewrite weighted_average_unfold, py_sum_total, Htot.
    destruct (accuracies_of metrics) as [ accs | e ]; [ | exact I ].
    cbn [mbind result_bind].
    destruct (py_sum accs) as [ v | e ]; [ | exact I ].
    cbn [mbind result_bind]. apply fails_bind, py_truediv_by_zero.
  - intros metrics reports Hrep Hfit Htot.
    rewrite weighted_average_unfold, (accuracies_of_floats _ _ Hrep Hfit),
      py_sum_total, Htot.
    cbn [mbind result_bind].
    destruct (map _ reports) as [ | f fs ] eqn:Hfs.
    + reflexivity.
    + rewrite py_sum_floats by discriminate. cbn [mbind result_bind].
      by rewrite py_truediv_float_by_zero.
Qed.

Lemma weighted_average_zero_total_witness :
  fails (weighted_average [ (2, {[ "accuracy" := PFloat 0.5 ]}); (-2, ∅) ]) ∧
  weighted_average [ (0, {[ "accuracy" := PFloat 0.5 ]}) ]
    = Raise ZeroDivisionError.
Proof.
  split.
  - apply (proj1 (proj2 weighted_average_zero_total)). reflexivity.
  - apply (proj2 (proj2 weighted_average_zero_total) _ [ (0, 0.5%float) ]).
    + repeat constructor.
    + repeat constructor.
    + reflexivity.
Defined.

(** *** Entries without the metric key *)

Lemma accuracies_of_missing_fails (metrics : list (Z * gmap string pyval)) :
  Exists lacks_accuracy metrics → fails (accuracies_of metrics).
Proof.
  induction 1 as [ [n m] metrics Hnone | [n m] metrics _ IH ];
    rewrite accuracies_of_cons.
  - unfold lacks_accuracy in Hnone. simpl in Hnone.
    by rewrite (getitem_none _ _ Hnone).
  - destruct (a ← getitem m "accuracy"; py_mul (PInt n) a) as [ y | e ];
      [ | exact I ].
    cbn [mbind result_bind]. by apply fails_bind.
Qed.

Lemma accuracies_of_missing_key (metrics : list (Z * gmap string pyval)) :
  Exists lacks_accuracy metrics →
  Forall float_or_missing metrics →
  accuracies_of metrics = Raise (KeyError "accuracy").
Proof.
  induction 1 as [ [n m] metrics Hnone | [n m] metrics _ IH ];
    intros Hall; rewrite accuracies_of_cons.
  - unfold lacks_accuracy in Hnone. simpl in Hnone.
    by rewrite (getitem_none _ _ Hnone).
  - apply Forall_cons in Hall as [ [Hfit [ Hnone | [a Ha] ] ] Hall ];
      simpl in *.
    + by rewrite (getitem_none _ _ Hnone).
    + rewrite (getitem_some _ _ _ Ha). cbn [mbind result_bind].
      rewrite py_mul_int_float, (int_to_float_fits _ Hfit), (IH Hall).
      reflexivity.
Qed.

(** C4, as stated, fails: an entry without the key is not left out of the
    aggregate. The whole aggregation raises [KeyError], although the other
    participant alone aggregates to 0.8. *)
Lemma missing_key_is_not_excluded :
  weighted_average [ (100, {[ "accuracy" := PFloat 0.8 ]}); (100, ∅) ]
    = Raise (KeyError "accuracy") ∧
  weighted_average [ (100, {[ "accuracy" := PFloat 0.8 ]}) ]
    = Ok {[ "accuracy" := PFloat 0.8 ]}.
Proof. split; vm_compute; reflexivity. Qed.

(** C4 (amended): [weighted_average] never leaves an entry out. When some
    entry lacks the key [accuracy] the aggregation raises, and the exception
    is [KeyError "accuracy"] when every other entry reports a float accuracy
    (counts within the range of a double), however many entries do have the
    key. *)
Theorem weighted_average_missing_key
    (metrics : list (Z * gmap string pyval)) :
  Exists lacks_accuracy metrics →
  fails (weighted_average metrics) ∧
  (Forall float_or_missing metrics →
   weighted_average metrics = Raise (KeyError "accuracy")).
Proof.
  intros Hex. rewrite weighted_average_unfold. split.
  - by apply fails_bind, accuracies_of_missing_fails.
  - intros Hall. by rewrite (accuracies_of_missing_key _ Hex Hall).
Qed.

Lemma weighted_average_missing_key_witness :
  fails (weighted_average
           [ (100, {[ "accuracy" := PFloat 0.8 ]}); (100, ∅) ]) ∧
  weighted_average [ (100, {[ "accuracy" := PFloat 0.8 ]}); (100, ∅) ]
    = Raise (KeyError "accuracy").
Proof.
  destruct (weighted_average_missing_key
              [ (100, {[ "accuracy" := PFloat 0.8 ]}); (100, ∅) ])
    as [Hfails Hkey].
  - apply Exists_cons_tl, Exists_cons_hd. reflexivity.
  - split; [ exact Hfails | apply Hkey ].
    apply Forall_cons; split; [ | apply Forall_cons; split; [ | constructor ] ].
    + split; [ reflexivity | right; by eexists ].
    + split; [ reflexivity | left; reflexivity ].
Defined.

(** *** Order of the client results *)








(** The difference between two orders is not bounded by rounding: one order
    of the accuracies 1e308, 1e308, -1e308 overflows to infinity, another
    aggregates to a finite value. *)
Example float_aggregation_overflows_in_one_order :
  weighted_average [ (1, {[ "accuracy" := PFloat 1e308 ]});
                     (1, {[ "accuracy" := PFloat 1e308 ]});
                     (1, {[ "accuracy" := PFloat (-1e308) ]}) ]
    = Ok {[ "accuracy" := PFloat infinity ]} ∧
  weighted_average [ (1, {[ "accuracy" := PFloat 1e308 ]});
                     (1, {[ "accuracy" := PFloat (-1e308) ]});
                     (1, {[ "accuracy" := PFloat 1e308 ]}) ]
    = Ok {[ "accuracy" := PFloat (1e308 / 3) ]}.
Proof. split; vm_compute; reflexivity. Qed.



Example weighted_average_integer_metrics :
  weighted_average integer_metrics = Ok {[ "accuracy" := PFloat 0.875 ]}.
Proof. vm_compute. reflexivity. Qed.

(** ** Centralized evaluation *)

Section CentralEvaluationFacts.
Context {Weights Losses Labels : Type}.
Variable window_losses : Weights → result (Losses * Losses).
Variable labelsFinal : Labels.
Variable pot_eval : Losses → Losses → Labels → result (gmap string pyval).
Variable np_sum : Losses → float.

(** When inference and scoring succeed and the scores hold the four
    integer confusion counts, [evaluate] is one true division. *)
Lemma evaluate_counts (weights : Weights) (lossT loss : Losses)
    (scores : gmap string pyval) (tp tn fp fn : Z) :
  window_losses weights = Ok (lossT, loss) →
  pot_eval lossT loss labelsFinal = Ok scores →
  scores !! "TP" = Some (PInt tp) →
  scores !! "TN" = Some (PInt tn) →
  scores !! "FP" = Some (PInt fp) →
  scores !! "FN" = Some (PInt fn) →
  evaluate window_losses labelsFinal pot_eval np_sum weights =
    q ← int_truediv (tp + tn) (tp + tn + fp + fn);
    Ok (np_sum loss, {[ "accuracy" := PFloat q ]}).
Proof.
  intros Hloss Hscores Htp Htn Hfp Hfn. unfold evaluate.
  rewrite Hloss. cbn [mbind result_bind]. rewrite Hscores.
  cbn [mbind result_bind].
  rewrite (getitem_some _ _ _ Htp), (getitem_some _ _ _ Htn),
    (getitem_some _ _ _ Hfp), (getitem_some _ _ _ Hfn).
  cbn [mbind result_bind]. rewrite !py_add_ints. cbn [mbind result_bind].
  rewrite !py_add_ints. cbn [mbind result_bind].
  rewrite !py_add_ints. cbn [mbind result_bind].
  unfold py_truediv. cbn [as_num].
  by destruct (int_truediv _ _).
Qed.
End CentralEvaluationFacts.

(** [evaluate] is [evaluate_on] at the operators of Python numbers. *)
Lemma evaluate_on_python {Weights Losses Labels : Type}
    (window_losses : Weights → result (Losses * Losses))
    (labelsFinal : Labels)
    (pot_eval : Losses → Losses → Labels → result (gmap string pyval))
    (np_sum : Losses → float) (weights : Weights) :
  evaluate_on py_add py_truediv window_losses labelsFinal pot_eval np_sum
              weights
    = evaluate window_losses labelsFinal pot_eval np_sum weights.
Proof. reflexivity. Qed.

(** With [np.int64] counts the evaluation never raises once inference and
    scoring have returned: it is one IEEE division of two wrapped sums. *)
Lemma evaluate_on_np_counts {Weights Losses Labels : Type}
    (window_losses : Weights → result (Losses * Losses))
    (labelsFinal : Labels)
    (pot_eval : Losses → Losses → Labels → result (gmap string Np.int64))
    (np_sum : Losses → float) (weights : Weights) (lossT loss : Losses)
    (scores : gmap string Np.int64) (tp tn fp fn : Z) :
  window_losses weights = Ok (lossT, loss) →
  pot_eval lossT loss labelsFinal = Ok scores →
  scores !! "TP" = Some (Np.Int64 tp) →
  scores !! "TN" = Some (Np.Int64 tn) →
  scores !! "FP" = Some (Np.Int64 fp) →
  scores !! "FN" = Some (Np.Int64 fn) →
  evaluate_on Np.add Np.truediv window_losses labelsFinal pot_eval np_sum
              weights
    = Ok (np_sum loss,
          {[ "accuracy" :=
               PFloat (PrimFloat.div
                         (Z2F (Np.wrap (tp + tn)))
                         (Z2F (Np.wrap
                                 (Np.wrap (Np.wrap (tp + tn) + fp) + fn)))) ]}).
Proof.
  intros Hloss Hscores Htp Htn Hfp Hfn. unfold evaluate_on, getitem_of.
  rewrite Hloss. cbn [mbind result_bind]. rewrite Hscores.
  cbn [mbind result_bind]. rewrite Htp, Htn, Hfp, Hfn. reflexivity.
Qed.

(** C5, as stated, fails: with the zero counts of a scorer that counts in
    NumPy, the division of line 171 returns [nan] and [evaluate] returns
    normally; nothing fails. *)
Lemma evaluate_zero_np_counts_returns_nan :
  evaluate_on Np.add Np.truediv sample_losses ()
              (λ _ _ _, Ok np_no_samples) sum_floats ()
    = Ok (0.875%float, {[ "accuracy" := PFloat nan ]}).
Proof. vm_compute. reflexivity. Qed.

(** C5 (amended): [evaluate] computes the accuracy as
    [(TP + TN) / (TP + TN + FP + FN)] with the operators of the counts the
    scorer returned, and does not guard the division. The counts 40, 50, 5, 5
    give 0.9, as Python integers and as [np.int64] scalars. With a zero
    denominator, Python integers make the division raise
    [ZeroDivisionError]; [np.int64] scalars make [evaluate] return, with the
    accuracy [nan] when all four counts are zero. *)
Theorem evaluate_accuracy_unguarded {Weights Losses Labels : Type}
    (window_losses : Weights → result (Losses * Losses))
    (labelsFinal : Labels)
    (pot_eval : Losses → Losses → Labels → result (gmap string pyval))
    (pot_eval_np : Losses → Losses → Labels → result (gmap string Np.int64))
    (np_sum : Losses → float)
    (weights : Weights) (lossT loss : Losses)
    (scores : gmap string pyval) (scores_np : gmap string Np.int64)
    (tp tn fp fn : Z) :
  window_losses weights = Ok (lossT, loss) →
  pot_eval lossT loss labelsFinal = Ok scores →
  scores !! "TP" = Some (PInt tp) →
  scores !! "TN" = Some (PInt tn) →
  scores !! "FP" = Some (PInt fp) →
  scores !! "FN" = Some (PInt fn) →
  pot_eval_np lossT loss labelsFinal = Ok scores_np →
  scores_np !! "TP" = Some (Np.Int64 tp) →
  scores_np !! "TN" = Some (Np.Int64 tn) →
  scores_np !! "FP" = Some (Np.Int64 fp) →
  scores_np !! "FN" = Some (Np.Int64 fn) →
  evaluate window_losses labelsFinal pot_eval np_sum weights
    = (q ← int_truediv (tp + tn) (tp + tn + fp + fn);
       Ok (np_sum loss, {[ "accuracy" := PFloat q ]})) ∧
  evaluate_on Np.add Np.truediv window_losses labelsFinal pot_eval_np np_sum
              weights
    = Ok (np_sum loss,
          {[ "accuracy" :=
               PFloat (PrimFloat.div
                         (Z2F (Np.wrap (tp + tn)))
                         (Z2F (Np.wrap
                                 (Np.wrap (Np.wrap (tp + tn) + fp) + fn)))) ]}) ∧
  (tp = 40 → tn = 50 → fp = 5 → fn = 5 →
   evaluate window_losses labelsFinal pot_eval np_sum weights
     = Ok (np_sum loss, {[ "accuracy" := PFloat 0.9 ]}) ∧
   evaluate_on Np.add Np.truediv window_losses labelsFinal pot_eval_np np_sum
               weights
     = Ok (np_sum loss, {[ "accuracy" := PFloat 0.9 ]})) ∧
  (tp + tn + fp + fn = 0 →
   evaluate window_losses labelsFinal pot_eval np_sum weights
     = Raise ZeroDivisionError) ∧
  (tp = 0 → tn = 0 → fp = 0 → fn = 0 →
   evaluate_on Np.add Np.truediv window_losses labelsFinal pot_eval_np np_sum
               weights
     = Ok (np_sum loss, {[ "accuracy" := PFloat nan ]})).
Proof.
  intros Hloss Hscores Htp Htn Hfp Hfn Hscores' Htp' Htn' Hfp' Hfn'.
  pose proof (evaluate_counts _ _ _ np_sum _ _ _ _ _ _ _ _
                Hloss Hscores Htp Htn Hfp Hfn) as Heval.
  pose proof (evaluate_on_np_counts _ _ _ np_sum _ _ _ _ _ _ _ _
                Hloss Hscores' Htp' Htn' Hfp' Hfn') as Heval'.
  split; [ exact Heval | split; [ exact Heval' | split; [ | split ] ] ].
  - intros -> -> -> ->. rewrite Heval, Heval'. split.
    + change (int_truediv (40 + 50) (40 + 50 + 5 + 5))
        with (int_truediv 90 100).
      replace (int_truediv 90 100) with (Ok 0.9%float : result float)
        by (vm_compute; reflexivity).
      reflexivity.
    + do 3 f_equal; vm_compute; reflexivity.
  - intros Hzero. rewrite Heval, Hzero. reflexivity.
  - intros -> -> -> ->. rewrite Heval'. do 3 f_equal; vm_compute; reflexivity.
Qed.

Lemma evaluate_accuracy_unguarded_witness :
  (evaluate sample_losses () (λ _ _ _, Ok counts_40_50_5_5) sum_floats ()
     = Ok (0.875%float, {[ "accuracy" := PFloat 0.9 ]}) ∧
   evaluate_on Np.add Np.truediv sample_losses ()
               (λ _ _ _, Ok np_counts_40_50_5_5) sum_floats ()
     = Ok (0.875%float, {[ "accuracy" := PFloat 0.9 ]})) ∧
  evaluate sample_losses () (λ _ _ _, Ok no_samples) sum_floats ()
    = Raise ZeroDivisionError ∧
  evaluate_on Np.add Np.truediv sample_losses ()
              (λ _ _ _, Ok np_no_samples) sum_floats ()
    = Ok (0.875%float, {[ "accuracy" := PFloat nan ]}).
Proof.
  split; [ | split ].
  - apply (proj1 (proj2 (proj2
      (evaluate_accuracy_unguarded sample_losses ()
         (λ _ _ _, Ok counts_40_50_5_5) (λ _ _ _, Ok np_counts_40_50_5_5)
         sum_floats () [0.25; 0.5]%float [0.125; 0.25; 0.5]%float
         counts_40_50_5_5 np_counts_40_50_5_5 40 50 5 5
         eq_refl eq_refl eq_refl eq_refl eq_refl eq_refl
         eq_refl eq_refl eq_refl eq_refl eq_refl))));
      reflexivity.
  - apply (proj1 (proj2 (proj2 (proj2
      (evaluate_accuracy_unguarded sample_losses ()
         (λ _ _ _, Ok no_samples) (λ _ _ _, Ok np_no_samples)
         sum_floats () [0.25; 0.5]%float [0.125; 0.25; 0.5]%float
         no_samples np_no_samples 0 0 0 0
         eq_refl eq_refl eq_refl eq_refl eq_refl eq_refl
         eq_refl eq_refl eq_refl eq_refl eq_refl)))));
      reflexivity.
  - apply (proj2 (proj2 (proj2 (proj2
      (evaluate_accuracy_unguarded sample_losses ()
         (λ _ _ _, Ok no_samples) (λ _ _ _, Ok np_no_samples)
         sum_floats () [0.25; 0.5]%float [0.125; 0.25; 0.5]%float
         no_samples np_no_samples 0 0 0 0
         eq_refl eq_refl eq_refl eq_refl eq_refl eq_refl
         eq_refl eq_refl eq_refl eq_refl eq_refl)))));
      reflexivity.
Defined.

(** * Further properties of the code *)

Set Warnings "-clear-no-such-hyp".

(** ** Start-up and the steps of [main] *)

(** No [StartServer] call occurs in a log of other calls. *)
Ltac no_server_in_log H :=
  repeat (apply elem_of_cons in H as [ H | H ]; [ discriminate H | ]);
  by apply elem_of_nil in H.

(** X2: the server is started only after the thresholds passed the assertion
    and every earlier step (the logger, the dataset and model loaders with
    the unpacking of their results, the extraction of the model weights, the
    client manager, the parameter conversion, the strategy and the server
    constructors) ended normally; the run then took exactly the twelve steps
    of the start-up sequence, in program order, [start_server] last. *)
Theorem main_starts_server_only_if (args : Args)
    (outcome : call → result unit) :
  round_started (main args outcome []).2 →
  min_sample_size args ≤ min_num_clients args ∧
  (main args outcome []).2 = startup_calls args ∧
  Forall (λ c, outcome c = Ok ()) (take 11 (startup_calls args)).
Proof.
  unfold main, run_bind, py_assert, extern, startup_calls.
  destruct (Z.leb_spec (min_sample_size args) (min_num_clients args))
    as [Hle | Hlt].
  2: { simpl. intros (a & n & Hin). no_server_in_log Hin. }
  cbn [app fst snd].
  destruct (outcome (ConfigureLogger "server")) as [ [] | e ] eqn:H1.
  2: { simpl. intros (a & n & Hin). no_server_in_log Hin. }
  destruct (outcome (LoadDataset (dataset args))) as [ [] | e ] eqn:H2.
  2: { simpl. intros (a & n & Hin). no_server_in_log Hin. }
  destruct (outcome UnpackDataset) as [ [] | e ] eqn:H3.
  2: { simpl. intros (a & n & Hin). no_server_in_log Hin. }
  destruct (outcome LabelsShape) as [ [] | e ] eqn:H4.
  2: { simpl. intros (a & n & Hin). no_server_in_log Hin. }
  destruct (outcome (LoadModel (model args) _)) as [ [] | e ] eqn:H5.
  2: { simpl. intros (a & n & Hin). no_server_in_log Hin. }
  destruct (outcome UnpackModel) as [ [] | e ] eqn:H6.
  2: { simpl. intros (a & n & Hin). no_server_in_log Hin. }
  destruct (outcome ModelWeights) as [ [] | e ] eqn:H7.
  2: { simpl. intros (a & n & Hin). no_server_in_log Hin. }
  destruct (outcome SimpleClientManager) as [ [] | e ] eqn:H8.
  2: { simpl. intros (a & n & Hin). no_server_in_log Hin. }
  destruct (outcome WeightsToParameters) as [ [] | e ] eqn:H9.
  2: { simpl. intros (a & n & Hin). no_server_in_log Hin. }
  destruct (outcome (FedAvg _ _ _ _ _)) as [ [] | e ] eqn:H10.
  2: { simpl. intros (a & n & Hin). no_server_in_log Hin. }
  destruct (outcome NewServer) as [ [] | e ] eqn:H11.
  2: { simpl. intros (a & n & Hin). no_server_in_log Hin. }
  intros _. split; [ exact Hle | split ].
  - by destruct (outcome (StartServer _ _)).
  - cbn [take]. repeat constructor; assumption.
Qed.

Lemma main_starts_server_only_if_witness :
  min_sample_size (default_args "[::]:8080")
    ≤ min_num_clients (default_args "[::]:8080") ∧
  (main (default_args "[::]:8080") (λ _, Ok ()) []).2
    = startup_calls (default_args "[::]:8080") ∧
  Forall (λ c, (λ _ : call, Ok ()) c = Ok ())
         (take 11 (startup_calls (default_args "[::]:8080"))).
Proof.
  apply (main_starts_server_only_if (default_args "[::]:8080") (λ _, Ok ())).
  exists "[::]:8080", 5. vm_compute.
  do 11 apply list_elem_of_further. apply list_elem_of_here.
Defined.

(** The run stopped at step [k] of the start-up sequence, whose outcome it
    returns. *)
Ltac stopped_at k H :=
  eexists k, _; split; [ reflexivity | ]; rewrite H;
  split; [ reflexivity | ];
  split; [ repeat constructor; assumption | intros _; exact I ].

(** A run of [main] either stops at the assertion, or walks a prefix of the
    start-up sequence and returns the outcome of the last step it took; only
    the last step, [start_server], may end the run normally. *)
Lemma main_run (args : Args) (outcome : call → result unit) :
  (min_num_clients args < min_sample_size args ∧
   main args outcome [] = (Raise (AssertionError assertion_message), [])) ∨
  (min_sample_size args ≤ min_num_clients args ∧
   ∃ (k : nat) (c : call),
     startup_calls args !! k = Some c ∧
     main args outcome [] = (outcome c, take (S k) (startup_calls args)) ∧
     Forall (λ c', outcome c' = Ok ()) (take k (startup_calls args)) ∧
     ((k < 11)%nat → fails (outcome c))).
Proof.
  unfold main, run_bind, py_assert, extern, startup_calls.
  destruct (Z.leb_spec (min_sample_size args) (min_num_clients args))
    as [Hle | Hlt]; [ right; split; [ exact Hle | ] | left; by split ].
  cbn [app fst snd].
  destruct (outcome (ConfigureLogger "server")) as [ [] | e ] eqn:H1;
    [ | stopped_at 0%nat H1 ].
  destruct (outcome (LoadDataset (dataset args))) as [ [] | e ] eqn:H2;
    [ | stopped_at 1%nat H2 ].
  destruct (outcome UnpackDataset) as [ [] | e ] eqn:H3;
    [ | stopped_at 2%nat H3 ].
  destruct (outcome LabelsShape) as [ [] | e ] eqn:H4;
    [ | stopped_at 3%nat H4 ].
  destruct (outcome (LoadModel (model args) _)) as [ [] | e ] eqn:H5;
    [ | stopped_at 4%nat H5 ].
  destruct (outcome UnpackModel) as [ [] | e ] eqn:H6;
    [ | stopped_at 5%nat H6 ].
  destruct (outcome ModelWeights) as [ [] | e ] eqn:H7;
    [ | stopped_at 6%nat H7 ].
  destruct (outcome SimpleClientManager) as [ [] | e ] eqn:H8;
    [ | stopped_at 7%nat H8 ].
  destruct (outcome WeightsToParameters) as [ [] | e ] eqn:H9;
    [ | stopped_at 8%nat H9 ].
  destruct (outcome (FedAvg _ _ _ _ _)) as [ [] | e ] eqn:H10;
    [ | stopped_at 9%nat H10 ].
  destruct (outcome NewServer) as [ [] | e ] eqn:H11;
    [ | stopped_at 10%nat H11 ].
  eexists 11%nat, _. split; [ reflexivity | ].
  split; [ reflexivity | ].
  split; [ repeat constructor; assumption | lia ].
Qed.

(** X3: [main] swallows no exception and takes no step after one: when it
    raises, either the assertion failed before any step, or the exception is
    the one raised by the last step it took (a collaborator call, or the
    unpacking or indexing of a collaborator's result), and the steps taken
    are a prefix of the start-up sequence. *)
Theorem main_propagates_failure (args : Args) (outcome : call → result unit)
    (e : exn) (log : list call) :
  main args outcome [] = (Raise e, log) →
  (log = [] ∧ e = AssertionError assertion_message) ∨
  (∃ c, last log = Some c ∧ outcome c = Raise e ∧
        log `prefix_of` startup_calls args).
Proof.
  intros Hrun.
  destruct (main_run args outcome)
    as [ [_ Hmain] | (_ & k & c & Hk & Hmain & _) ];
    rewrite Hmain in Hrun;
    pose proof (f_equal fst Hrun) as He; pose proof (f_equal snd Hrun) as Hlog;
    cbn [fst snd] in He, Hlog.
  - left. injection He as <-. by subst.
  - right. exists c. subst log.
    split; [ | split; [ exact He | apply prefix_take ] ].
    rewrite (take_S_r _ _ _ Hk). apply last_snoc.
Qed.

Lemma main_propagates_failure_witness :
  ([ ConfigureLogger "server"; LoadDataset "ENERGY" ] = [] ∧
   KeyError "ENERGY" = AssertionError assertion_message) ∨
  (∃ c, last [ ConfigureLogger "server"; LoadDataset "ENERGY" ] = Some c ∧
        dataset_missing c = Raise (KeyError "ENERGY") ∧
        [ ConfigureLogger "server"; LoadDataset "ENERGY" ]
          `prefix_of` startup_calls (default_args "[::]:8080")).
Proof.
  apply (main_propagates_failure (default_args "[::]:8080") dataset_missing).
  reflexivity.
Defined.

(** X4: every strategy [main] builds has [min_fit_clients] equal to
    [min_eval_clients], both the configured sample size, and requires at
    least that many available clients: the assertion rules out a strategy
    that samples more clients than it waits for. *)
Theorem main_strategy_thresholds (args : Args) (outcome : call → result unit)
    (fraction_fit fraction_eval : float) (min_fit min_eval min_available : Z) :
  FedAvg fraction_fit fraction_eval min_fit min_eval min_available
    ∈ (main args outcome []).2 →
  min_fit = min_sample_size args ∧
  min_eval = min_sample_size args ∧
  min_available = min_num_clients args ∧
  min_fit ≤ min_available.
Proof.
  intros Hin.
  destruct (main_run args outcome)
    as [ [_ Hmain] | (Hle & k & c & _ & Hmain & _) ];
    rewrite Hmain in Hin; cbn [snd] in Hin.
  - by apply elem_of_nil in Hin.
  - apply elem_of_take in Hin as (i & Hi & _).
    unfold startup_calls in Hi.
    destruct i
      as [ | [ | [ | [ | [ | [ | [ | [ | [ | [ | [ | [ | i ] ] ] ] ] ] ] ] ] ] ] ];
      try discriminate Hi.
    injection Hi as _ _ <- <- <-. lia.
Qed.

Lemma main_strategy_thresholds_witness :
  3 = min_sample_size (default_args "[::]:8080") ∧
  3 = min_sample_size (default_args "[::]:8080") ∧
  3 = min_num_clients (default_args "[::]:8080") ∧
  3 ≤ 3.
Proof.
  apply (main_strategy_thresholds (default_args "[::]:8080") (λ _, Ok ())
           0.2 0.2 3 3 3).
  vm_compute. do 9 apply list_elem_of_further. apply list_elem_of_here.
Defined.

(** ** The two schedules *)

(** X1: over all integers the evaluation depth is 5 or 10 and never
    decreases when the round index grows. *)
Theorem evaluate_config_nondecreasing (r r' : Z) :
  r ≤ r' →
  ∃ v v', evaluate_config r !! "val_steps" = Some (PInt v) ∧
          evaluate_config r' !! "val_steps" = Some (PInt v') ∧
          (v = 5 ∨ v = 10) ∧ (v' = 5 ∨ v' = 10) ∧ v ≤ v'.
Proof.
  intros Hle. rewrite !evaluate_config_cases, !lookup_singleton_eq.
  eexists _, _. split; [ reflexivity | split; [ reflexivity | ] ].
  destruct (Z.ltb_spec r 4), (Z.ltb_spec r' 4); lia.
Qed.

Lemma evaluate_config_nondecreasing_witness :
  ∃ v v', evaluate_config (-3) !! "val_steps" = Some (PInt v) ∧
          evaluate_config 7 !! "val_steps" = Some (PInt v') ∧
          (v = 5 ∨ v = 10) ∧ (v' = 5 ∨ v' = 10) ∧ v ≤ v'.
Proof.
  apply (evaluate_config_nondecreasing (-3) 7). lia.
Defined.

(** X5: the round index reaches the training configuration through
    [epoch_global] only; every other option, the local epoch count included,
    is the same in all rounds. *)
Theorem fit_config_round_only_in_epoch_global (args : Args) (r r' : Z) :
  delete "epoch_global" (fit_config args r)
    = delete "epoch_global" (fit_config args r').
Proof.
  unfold fit_config. apply map_eq. intros k.
  destruct (decide (k = "epoch_global")) as [ -> | Hk ].
  - by rewrite !lookup_delete_eq.
  - by rewrite !lookup_delete_ne, !(lookup_insert_ne _ "epoch_global").
Qed.

(** ** Centralized evaluation: errors and what the result depends on *)

Lemma py_truediv_ok_float (a b v : pyval) :
  py_truediv a b = Ok v → ∃ q, v = PFloat q.
Proof.
  unfold py_truediv, mbind, result_bind.
  intros H. repeat case_match; simplify_eq; eauto.
Qed.

Section CentralEvaluationErrors.
Context {Weights Losses Labels : Type}.
Variable window_losses : Weights → result (Losses * Losses).
Variable labelsFinal : Labels.
Variable pot_eval : Losses → Losses → Labels → result (gmap string pyval).
Variable np_sum : Losses → float.

(** X6: [evaluate] passes on the exception of a failing inference pass or of
    a failing scorer, and when the scores lack one of the counts it raises
    [KeyError] for the first of [TP], [TN], [FP], [FN] that is missing. *)
Theorem evaluate_errors (weights : Weights) :
  (∀ e, window_losses weights = Raise e →
        evaluate window_losses labelsFinal pot_eval np_sum weights = Raise e) ∧
  (∀ lossT loss e,
     window_losses weights = Ok (lossT, loss) →
     pot_eval lossT loss labelsFinal = Raise e →
     evaluate window_losses labelsFinal pot_eval np_sum weights = Raise e) ∧
  (∀ lossT loss scores k,
     window_losses weights = Ok (lossT, loss) →
     pot_eval lossT loss labelsFinal = Ok scores →
     first_missing_count scores k →
     evaluate window_losses labelsFinal pot_eval np_sum weights
       = Raise (KeyError k)).
Proof.
  unfold evaluate. split; [ | split ].
  - by intros e ->.
  - intros lossT loss e -> Hs. cbn [mbind result_bind]. by rewrite Hs.
  - intros lossT loss scores k -> Hs (before & after & Hsplit & Hk & Hbefore).
    cbn [mbind result_bind]. rewrite Hs. cbn [mbind result_bind].
    unfold count_keys in Hsplit.
    destruct before as [ | k1 [ | k2 [ | k3 [ | k4 before ] ] ] ];
      simplify_eq/=.
    + by rewrite (getitem_none _ _ Hk).
    + apply Forall_cons in Hbefore as [ [tp Htp] _ ].
      rewrite (getitem_some _ _ _ Htp). cbn [mbind result_bind].
      by rewrite (getitem_none _ _ Hk).
    + apply Forall_cons in Hbefore as [ [tp Htp] Hbefore ].
      apply Forall_cons in Hbefore as [ [tn Htn] _ ].
      rewrite (getitem_some _ _ _ Htp), (getitem_some _ _ _ Htn).
      cbn [mbind result_bind]. rewrite !py_add_ints. cbn [mbind result_bind].
      by rewrite (getitem_none _ _ Hk).
    + apply Forall_cons in Hbefore as [ [tp Htp] Hbefore ].
      apply Forall_cons in Hbefore as [ [tn Htn] Hbefore ].
      apply Forall_cons in Hbefore as [ [fp Hfp] _ ].
      rewrite (getitem_some _ _ _ Htp), (getitem_some _ _ _ Htn),
        (getitem_some _ _ _ Hfp).
      cbn [mbind result_bind]. rewrite !py_add_ints. cbn [mbind result_bind].
      rewrite !py_add_ints. cbn [mbind result_bind].
      by rewrite (getitem_none _ _ Hk).
    + destruct before; discriminate.
Qed.

(** X7: [evaluate] returns a value only when both collaborators returned and
    the scores hold all four counts; the loss it returns is [np.sum] of the
    test losses, and the metrics are the single entry [accuracy], a float. *)
Theorem evaluate_returns_only_if (weights : Weights) (ls : float)
    (metrics : gmap string pyval) :
  evaluate window_losses labelsFinal pot_eval np_sum weights
    = Ok (ls, metrics) →
  ∃ lossT loss scores,
    window_losses weights = Ok (lossT, loss) ∧
    pot_eval lossT loss labelsFinal = Ok scores ∧
    Forall (λ k, is_Some (scores !! k)) count_keys ∧
    ls = np_sum loss ∧
    ∃ q, metrics = {[ "accuracy" := PFloat q ]}.
Proof.
  unfold evaluate, getitem.
  destruct (window_losses weights) as [ [lossT loss] | e ] eqn:Hw;
    [ | discriminate ].
  cbn [mbind result_bind].
  destruct (pot_eval lossT loss labelsFinal) as [ scores | e ] eqn:Hs;
    [ | discriminate ].
  cbn [mbind result_bind].
  destruct (scores !! "TP") as [ tp | ] eqn:Htp; [ | discriminate ].
  cbn [mbind result_bind].
  destruct (scores !! "TN") as [ tn | ] eqn:Htn; [ | discriminate ].
  cbn [mbind result_bind].
  destruct (py_add tp tn) as [ correct | e ]; [ | discriminate ].
  cbn [mbind result_bind].
  destruct (scores !! "FP") as [ fp | ] eqn:Hfp; [ | discriminate ].
  cbn [mbind result_bind].
  destruct (py_add correct fp) as [ d2 | e ]; [ | discriminate ].
  cbn [mbind result_bind].
  destruct (scores !! "FN") as [ fn | ] eqn:Hfn; [ | discriminate ].
  cbn [mbind result_bind].
  destruct (py_add d2 fn) as [ samples | e ]; [ | discriminate ].
  cbn [mbind result_bind].
  destruct (py_truediv correct samples) as [ accuracy | e ] eqn:Hdiv;
    [ | discriminate ].
  cbn [mbind result_bind]. intros [= <- <-].
  exists lossT, loss, scores.
  split; [ reflexivity | split; [ exact Hs | split; [ | split; [ reflexivity | ] ] ] ].
  - unfold count_keys.
    repeat (apply Forall_cons; split); try apply Forall_nil;
      rewrite ?Htp, ?Htn, ?Hfp, ?Hfn; eauto.
  - destruct (py_truediv_ok_float _ _ _ Hdiv) as [q ->]. by exists q.
Qed.
End CentralEvaluationErrors.

Lemma evaluate_errors_witness :
  evaluate sample_losses () (λ _ _ _, Ok scores_without_fn) sum_floats ()
    = Raise (KeyError "FN").
Proof.
  apply (proj2 (proj2 (evaluate_errors sample_losses ()
                         (λ _ _ _, Ok scores_without_fn) sum_floats ()))
           [0.25; 0.5]%float [0.125; 0.25; 0.5]%float scores_without_fn);
    [ reflexivity | reflexivity | ].
  exists [ "TP"; "TN"; "FP" ], []. split; [ reflexivity | split ].
  - reflexivity.
  - repeat (apply Forall_cons; split); [ .. | apply Forall_nil ];
      eexists; reflexivity.
Defined.

Lemma evaluate_returns_only_if_witness :
  ∃ lossT loss scores,
    sample_losses () = Ok (lossT, loss) ∧
    (λ _ _ _, Ok counts_40_50_5_5) lossT loss () = Ok scores ∧
    Forall (λ k, is_Some (scores !! k)) count_keys ∧
    0.875%float = sum_floats loss ∧
    ∃ q, ({[ "accuracy" := PFloat 0.9 ]} : gmap string pyval)
         = {[ "accuracy" := PFloat q ]}.
Proof.
  apply (evaluate_returns_only_if sample_losses ()
           (λ _ _ _, Ok counts_40_50_5_5) sum_floats ()).
  vm_compute. reflexivity.
Defined.

Section CentralEvaluationScores.
Context {Weights Losses Labels : Type}.
Variable window_losses : Weights → result (Losses * Losses).
Variable labelsFinal : Labels.
Variables pot_eval pot_eval' :
  Losses → Losses → Labels → result (gmap string pyval).
Variable np_sum : Losses → float.

(** X8: of the scores, [evaluate] uses the four counts only: two scorers whose
    results agree on [TP], [TN], [FP] and [FN] give the same evaluation,
    whatever else they report (f1, precision, threshold, ...). *)
Theorem evaluate_reads_only_counts (weights : Weights) (lossT loss : Losses)
    (scores scores' : gmap string pyval) :
  window_losses weights = Ok (lossT, loss) →
  pot_eval lossT loss labelsFinal = Ok scores →
  pot_eval' lossT loss labelsFinal = Ok scores' →
  Forall (λ k, scores !! k = scores' !! k) count_keys →
  evaluate window_losses labelsFinal pot_eval np_sum weights
    = evaluate window_losses labelsFinal pot_eval' np_sum weights.
Proof.
  intros Hw Hs Hs' Hsame. unfold count_keys in Hsame.
  apply Forall_cons in Hsame as [Htp Hsame].
  apply Forall_cons in Hsame as [Htn Hsame].
  apply Forall_cons in Hsame as [Hfp Hsame].
  apply Forall_cons in Hsame as [Hfn _].
  unfold evaluate, getitem. rewrite Hw. cbn [mbind result_bind].
  rewrite Hs, Hs'. cbn [mbind result_bind].
  by rewrite Htp, Htn, Hfp, Hfn.
Qed.

(** X9: the accuracy treats the two classes alike: exchanging the true
    positives with the true negatives and the false positives with the false
    negatives leaves the evaluation unchanged. *)
Theorem evaluate_class_symmetry (weights : Weights) (lossT loss : Losses)
    (scores scores' : gmap string pyval) (tp tn fp fn : Z) :
  window_losses weights = Ok (lossT, loss) →
  pot_eval lossT loss labelsFinal = Ok scores →
  pot_eval' lossT loss labelsFinal = Ok scores' →
  scores !! "TP" = Some (PInt tp) → scores !! "TN" = Some (PInt tn) →
  scores !! "FP" = Some (PInt fp) → scores !! "FN" = Some (PInt fn) →
  scores' !! "TP" = Some (PInt tn) → scores' !! "TN" = Some (PInt tp) →
  scores' !! "FP" = Some (PInt fn) → scores' !! "FN" = Some (PInt fp) →
  evaluate window_losses labelsFinal pot_eval np_sum weights
    = evaluate window_losses labelsFinal pot_eval' np_sum weights.
Proof.
  intros Hw Hs Hs' Htp Htn Hfp Hfn Htp' Htn' Hfp' Hfn'.
  rewrite (evaluate_counts _ _ pot_eval np_sum _ _ _ _ _ _ _ _
             Hw Hs Htp Htn Hfp Hfn).
  rewrite (evaluate_counts _ _ pot_eval' np_sum _ _ _ _ _ _ _ _
             Hw Hs' Htp' Htn' Hfp' Hfn').
  replace (tn + tp) with (tp + tn) by lia.
  by replace (tp + tn + fn + fp) with (tp + tn + fp + fn) by lia.
Qed.
End CentralEvaluationScores.

Lemma evaluate_reads_only_counts_witness :
  evaluate sample_losses () (λ _ _ _, Ok counts_40_50_5_5) sum_floats ()
    = evaluate sample_losses () (λ _ _ _, Ok verbose_scores) sum_floats ().
Proof.
  apply (evaluate_reads_only_counts sample_losses ()
           (λ _ _ _, Ok counts_40_50_5_5) (λ _ _ _, Ok verbose_scores)
           sum_floats () [0.25; 0.5]%float [0.125; 0.25; 0.5]%float
           counts_40_50_5_5 verbose_scores);
    [ reflexivity | reflexivity | reflexivity | ].
  repeat (apply Forall_cons; split); [ .. | apply Forall_nil ];
    vm_compute; reflexivity.
Defined.

Lemma evaluate_class_symmetry_witness :
  evaluate sample_losses () (λ _ _ _, Ok counts_40_50_5_5) sum_floats ()
    = evaluate sample_losses () (λ _ _ _, Ok counts_50_40_5_5) sum_floats ().
Proof.
  apply (evaluate_class_symmetry sample_losses ()
           (λ _ _ _, Ok counts_40_50_5_5) (λ _ _ _, Ok counts_50_40_5_5)
           sum_floats () [0.25; 0.5]%float [0.125; 0.25; 0.5]%float
           counts_40_50_5_5 counts_50_40_5_5 40 50 5 5);
    vm_compute; reflexivity.
Defined.

(** ** Metric aggregation: what is read, what is returned, what raises *)

Lemma accuracies_of_same (l l' : list (Z * gmap string pyval)) :
  same_accuracy_reports l l' → accuracies_of l = accuracies_of l'.
Proof.
  induction 1 as [ | [n m] [n' m'] l l' [Hn Hm] _ IH ]; [ reflexivity | ].
  simpl in Hn, Hm. subst n'.
  rewrite !accuracies_of_cons. unfold getitem. by rewrite Hm, IH.
Qed.

Lemma same_accuracy_reports_counts (l l' : list (Z * gmap string pyval)) :
  same_accuracy_reports l l' → l.*1 = l'.*1.
Proof.
  induction 1 as [ | [n m] [n' m'] l l' [Hn _] _ IH ]; [ reflexivity | ].
  rewrite !fmap_cons. simpl in Hn. by rewrite IH, Hn.
Qed.

(** X10: [weighted_average] reads the example counts and the [accuracy]
    entries and nothing else: collections that agree on these aggregate
    alike, so any further metric a client reports (a loss, say) is neither
    aggregated nor able to change the result. *)
Theorem weighted_average_reads_only_accuracy
    (l l' : list (Z * gmap string pyval)) :
  same_accuracy_reports l l' → weighted_average l = weighted_average l'.
Proof.
  intros Hsame. rewrite !weighted_average_unfold.
  by rewrite (accuracies_of_same _ _ Hsame),
    (same_accuracy_reports_counts _ _ Hsame).
Qed.

Lemma weighted_average_reads_only_accuracy_witness :
  weighted_average scenario_with_losses = weighted_average scenario.
Proof.
  apply weighted_average_reads_only_accuracy.
  repeat (apply Forall2_cons; split); [ .. | apply Forall2_nil ];
    split; vm_compute; reflexivity.
Defined.

(** X11: whenever [weighted_average] returns, the result has the single key
    [accuracy] and its value is a float, integer accuracies included. *)
Theorem weighted_average_returns_one_float
    (l : list (Z * gmap string pyval)) (metrics : gmap string pyval) :
  weighted_average l = Ok metrics →
  ∃ q, metrics = {[ "accuracy" := PFloat q ]}.
Proof.
  rewrite weighted_average_unfold.
  destruct (accuracies_of l) as [ accs | e ]; [ | discriminate ].
  cbn [mbind result_bind].
  destruct (py_sum accs) as [ s | e ]; [ | discriminate ].
  cbn [mbind result_bind].
  destruct (py_sum (PInt <$> l.*1)) as [ t | e ]; [ | discriminate ].
  cbn [mbind result_bind].
  destruct (py_truediv s t) as [ v | e ] eqn:Hdiv; [ | discriminate ].
  cbn [mbind result_bind]. intros [= <-].
  destruct (py_truediv_ok_float _ _ _ Hdiv) as [q ->]. by exists q.
Qed.

Lemma weighted_average_returns_one_float_witness :
  ∃ q, ({[ "accuracy" := PFloat 0.875 ]} : gmap string pyval)
       = {[ "accuracy" := PFloat q ]}.
Proof.
  apply (weighted_average_returns_one_float integer_metrics).
  vm_compute. reflexivity.
Defined.

Lemma py_mul_non_numeric (n : Z) (v y : pyval) :
  as_num v = None → py_mul (PInt n) v = Ok y → as_num y = None.
Proof. destruct v; try discriminate; by intros _ [= <-]. Qed.

Lemma py_add_numeric (a x y : pyval) :
  is_Some (as_num a) → py_add a x = Ok y → is_Some (as_num y).
Proof.
  unfold py_add, mbind, result_bind. intros [na Ha] H. rewrite Ha in H.
  repeat case_match; simplify_eq; eauto.
Qed.

Lemma py_add_non_numeric (a x : pyval) :
  is_Some (as_num a) → as_num x = None → py_add a x = Raise TypeError.
Proof.
  unfold py_add. intros [na ->] ->. by destruct na.
Qed.

Lemma py_sum_from_non_numeric (acc : pyval) (l : list pyval) :
  is_Some (as_num acc) →
  Exists (λ v, as_num v = None) l →
  fails (py_sum_from acc l).
Proof.
  intros Hacc Hex. revert acc Hacc.
  induction Hex as [ x l Hx | x l _ IH ]; intros acc Hacc;
    rewrite py_sum_from_cons.
  - by rewrite (py_add_non_numeric _ _ Hacc Hx).
  - destruct (py_add acc x) as [ acc' | e ] eqn:Hadd; [ | exact I ].
    cbn [mbind result_bind]. apply IH. by eapply py_add_numeric.
Qed.

Lemma accuracies_of_non_numeric (l : list (Z * gmap string pyval))
    (accs : list pyval) :
  Exists non_numeric_report l →
  accuracies_of l = Ok accs →
  Exists (λ v, as_num v = None) accs.
Proof.
  intros Hex. revert accs.
  induction Hex as [ [n m] l (v & Hv & Hnone) | [n m] l _ IH ]; intros accs;
    rewrite accuracies_of_cons.
  - simpl in Hv. rewrite (getitem_some _ _ _ Hv). cbn [mbind result_bind].
    destruct (py_mul (PInt n) v) as [ y | e ] eqn:Hmul; [ | discriminate ].
    cbn [mbind result_bind].
    destruct (accuracies_of l) as [ k | e ]; [ | discriminate ].
    cbn [mbind result_bind]. intros [= <-].
    apply Exists_cons_hd. by eapply py_mul_non_numeric.
  - destruct (a ← getitem m "accuracy"; py_mul (PInt n) a) as [ y | e ];
      [ | discriminate ].
    cbn [mbind result_bind].
    destruct (accuracies_of l) as [ k | e ]; [ | discriminate ].
    cbn [mbind result_bind]. intros [= <-].
    apply Exists_cons_tl. by apply IH.
Qed.

(** X12: an [accuracy] that is not a number (a string or bytes) never yields
    an aggregate: [weighted_average] raises whenever some entry reports
    one. *)
Theorem weighted_average_non_numeric_accuracy
    (l : list (Z * gmap string pyval)) :
  Exists non_numeric_report l → fails (weighted_average l).
Proof.
  intros Hex. rewrite weighted_average_unfold.
  destruct (accuracies_of l) as [ accs | e ] eqn:Haccs; [ | exact I ].
  cbn [mbind result_bind]. apply fails_bind.
  apply py_sum_from_non_numeric; [ by eexists | ].
  by apply (accuracies_of_non_numeric l).
Qed.

Lemma weighted_average_non_numeric_accuracy_witness :
  fails (weighted_average
           [ (100, {[ "accuracy" := PFloat 0.8 ]});
             (2, {[ "accuracy" := PStr "0.9" ]}) ]).
Proof.
  apply weighted_average_non_numeric_accuracy.
  apply Exists_cons_tl, Exists_cons_hd. exists (PStr "0.9").
  split; reflexivity.
Defined.

(** X13: an example count beyond the range of a double makes the aggregation
    raise [OverflowError] when its entry, and every entry before it, reports a
    float accuracy. *)
Theorem weighted_average_count_overflow
    (before after : list (Z * gmap string pyval))
    (n : Z) (m : gmap string pyval) (a : float) :
  Forall float_report before →
  fits_double n = false →
  m !! "accuracy" = Some (PFloat a) →
  weighted_average (before ++ (n, m) :: after) = Raise OverflowError.
Proof.
  intros Hbefore Hn Hm. rewrite weighted_average_unfold.
  assert (Haccs : accuracies_of (before ++ (n, m) :: after)
                  = Raise OverflowError); [ | by rewrite Haccs ].
  induction Hbefore as [ | [n' m'] before [Hfit [a' Ha'] ] _ IH ].
  - rewrite app_nil_l, accuracies_of_cons, (getitem_some _ _ _ Hm).
    cbn [mbind result_bind]. rewrite py_mul_int_float.
    unfold int_to_float. by rewrite Hn.
  - simpl in Hfit, Ha'.
    rewrite <- app_comm_cons, accuracies_of_cons, (getitem_some _ _ _ Ha').
    cbn [mbind result_bind].
    by rewrite py_mul_int_float, (int_to_float_fits _ Hfit), IH.
Qed.

Lemma weighted_average_count_overflow_witness :
  weighted_average
    ([ (100, {[ "accuracy" := PFloat 0.8 ]}) ]
     ++ (2 ^ 1024, {[ "accuracy" := PFloat 0.9 ]}) :: [ (100, ∅) ])
    = Raise OverflowError.
Proof.
  apply (weighted_average_count_overflow _ _ _ _ 0.9%float).
  - apply Forall_cons; split; [ | constructor ].
    split; [ reflexivity | exists 0.8%float; reflexivity ].
  - vm_compute. reflexivity.
  - reflexivity.
Defined.

(** ** Loading weights: how keys and arrays are paired *)

Section SetWeightsFacts.
Context {Array Tensor : Type}.
Variable to_tensor : Array → Tensor.
Variable load_state_dict : gmap string Tensor → result unit.

Lemma fold_insert_lookup_notin (pairs : list (string * Array))
    (d : gmap string Tensor) (k : string) :
  k ∉ pairs.*1 →
  fold_left (λ d kv, <[kv.1 := to_tensor kv.2]> d) pairs d !! k = d !! k.
Proof.
  revert d. induction pairs as [ | [k0 w0] pairs IH ]; intros d Hk;
    [ reflexivity | ].
  rewrite fmap_cons, not_elem_of_cons in Hk. destruct Hk as [Hne Hk].
  cbn [fold_left fst snd]. rewrite (IH _ Hk). by apply lookup_insert_ne.
Qed.

Lemma fold_insert_dom (pairs : list (string * Array))
    (d : gmap string Tensor) :
  dom (fold_left (λ d kv, <[kv.1 := to_tensor kv.2]> d) pairs d)
    = dom d ∪ list_to_set (pairs.*1).
Proof.
  revert d. induction pairs as [ | [k0 w0] pairs IH ]; intros d.
  - cbn. by rewrite (right_id_L ∅ (∪)).
  - cbn [fold_left fst snd]. rewrite IH, dom_insert_L, fmap_cons.
    cbn [list_to_set fst].
    by rewrite (comm_L (∪) {[k0]} (dom d)), (assoc_L (∪)).
Qed.

Lemma zip_keys (keys : list string) (weights : list Array) :
  (zip keys weights).*1 = take (length weights) keys.
Proof.
  revert weights.
  induction keys as [ | k keys IH ]; intros [ | w weights ]; try reflexivity.
  cbn. by rewrite IH.
Qed.

Lemma state_dict_lookup_from (keys : list string) (weights : list Array)
    (d : gmap string Tensor) (i : nat) (k : string) (w : Array) :
  NoDup keys →
  keys !! i = Some k →
  weights !! i = Some w →
  fold_left (λ d kv, <[kv.1 := to_tensor kv.2]> d) (zip keys weights) d !! k
    = Some (to_tensor w).
Proof.
  intros Hnodup. revert weights d i.
  induction Hnodup as [ | k0 keys Hnotin _ IH ];
    intros [ | w0 weights ] d [ | i ] Hk Hw; try discriminate.
  - injection Hk as ->. injection Hw as ->.
    cbn [zip zip_with fold_left fst snd].
    rewrite fold_insert_lookup_notin; [ apply lookup_insert_eq | ].
    rewrite zip_keys. intros (j & Hj & _)%elem_of_take.
    apply Hnotin. by eapply list_elem_of_lookup_2.
  - cbn [zip zip_with fold_left]. by apply (IH _ _ i).
Qed.

(** X14: [set_weights] pairs keys and arrays by position: the tensor loaded
    under the i-th parameter name of the model is made from the i-th array of
    the weight list. *)
Theorem state_dict_positional (keys : list string) (weights : list Array)
    (i : nat) (k : string) (w : Array) :
  NoDup keys →
  keys !! i = Some k →
  weights !! i = Some w →
  state_dict to_tensor keys weights !! k = Some (to_tensor w).
Proof. apply state_dict_lookup_from. Qed.

(** X15: arrays beyond the number of parameter names are dropped without an
    error: loading a weight list with surplus arrays is loading it without
    them. *)
Theorem set_weights_ignores_surplus (keys : list string)
    (weights extra : list Array) :
  (length keys ≤ length weights)%nat →
  set_weights to_tensor load_state_dict keys (weights ++ extra)
    = set_weights to_tensor load_state_dict keys weights.
Proof.
  intros Hlen. unfold set_weights, state_dict. do 2 f_equal.
  revert weights Hlen.
  induction keys as [ | k keys IH ]; intros [ | w weights ] Hlen;
    try reflexivity; simpl in Hlen; [ lia | ].
  cbn. f_equal. apply IH. lia.
Qed.

(** X16: the state dictionary handed to [load_state_dict] binds the first
    [len(weights)] parameter names and no other: with too few arrays, every
    parameter from position [len(weights)] on is missing from it. *)
Theorem state_dict_domain (keys : list string) (weights : list Array) :
  dom (state_dict to_tensor keys weights)
    = list_to_set (take (length weights) keys) ∧
  (∀ i k, NoDup keys → keys !! i = Some k → (length weights ≤ i)%nat →
          state_dict to_tensor keys weights !! k = None).
Proof.
  split.
  - unfold state_dict. rewrite fold_insert_dom, zip_keys, dom_empty_L.
    by rewrite (left_id_L ∅ (∪)).
  - intros i k Hnodup Hk Hlen. unfold state_dict.
    rewrite fold_insert_lookup_notin; [ apply lookup_empty | ].
    rewrite zip_keys. intros (j & Hj & Hlt)%elem_of_take.
    assert (j = i) by (by eapply NoDup_lookup). lia.
Qed.
End SetWeightsFacts.

Lemma sample_keys_NoDup : NoDup sample_keys.
Proof. by apply (bool_decide_unpack _). Qed.

Lemma state_dict_positional_witness :
  state_dict (λ v : list Z, v) sample_keys sample_arrays !! "encoder.bias"
    = Some [3].
Proof.
  apply (state_dict_positional (λ v : list Z, v) sample_keys sample_arrays 1);
    [ exact sample_keys_NoDup | reflexivity | reflexivity ].
Defined.

Lemma set_weights_ignores_surplus_witness :
  set_weights (λ v : list Z, v) sample_strict_load sample_keys
              (sample_arrays ++ [ [9] ])
    = set_weights (λ v : list Z, v) sample_strict_load sample_keys
                  sample_arrays.
Proof.
  apply set_weights_ignores_surplus. simpl. lia.
Defined.

Lemma state_dict_domain_witness :
  state_dict (λ v : list Z, v) sample_keys [ [1; 2] ] !! "decoder.weight"
    = None.
Proof.
  apply (proj2 (state_dict_domain (λ v : list Z, v) sample_keys [ [1; 2] ])
           2%nat);
    [ exact sample_keys_NoDup | reflexivity | simpl; lia ].
Defined.

Example set_weights_strict_load_examples :
  set_weights (λ v : list Z, v) sample_strict_load sample_keys sample_arrays
    = Ok () ∧
  set_weights (λ v : list Z, v) sample_strict_load sample_keys [ [1; 2] ]
    = Raise (KeyError "encoder.bias").
Proof. split; vm_compute; reflexivity. Qed.

(** ** The table of tuned configurations *)

Lemma tuned_table_lookup (k : string) :
  is_Some (tuned_table !! k) ↔ k ∈ known_algorithms.
Proof.
  unfold tuned_table, Config.get_best_config, known_algorithms. cbn [snd].
  rewrite !lookup_insert_is_Some, lookup_empty, !elem_of_cons, elem_of_nil.
  pose proof (@is_Some_None (gmap string pyval)). naive_solver.
Qed.

(** Every call leaves the dictionary with the four configurations bound
    afresh and its other entries untouched. *)
Lemma get_best_config_store (algo_name : string)
    (best_configs : gmap string (gmap string pyval)) :
  (Config.get_best_config algo_name best_configs).2
    = tuned_table ∪ best_configs.
Proof.
  unfold tuned_table, Config.get_best_config. cbn [snd].
  by rewrite <- !insert_union_l, (left_id_L ∅ (∪)).
Qed.

Lemma get_best_config_result (algo_name : string)
    (best_configs : gmap string (gmap string pyval)) :
  (Config.get_best_config algo_name best_configs).1 =
    match (tuned_table ∪ best_configs) !! algo_name with
    | Some config => Ok config
    | None => Raise (KeyError algo_name)
    end.
Proof. by rewrite <- (get_best_config_store algo_name). Qed.

(** X17: for each of the four known names, [get_best_config] returns the
    tuned configuration whatever the dictionary held before: entries left by
    earlier calls, stale or altered, are overwritten before the lookup. *)
Theorem get_best_config_known (algo_name : string) :
  algo_name ∈ known_algorithms →
  ∃ config,
    tuned_table !! algo_name = Some config ∧
    ∀ best_configs,
      (Config.get_best_config algo_name best_configs).1 = Ok config.
Proof.
  intros [config Hconfig]%tuned_table_lookup. exists config.
  split; [ exact Hconfig | ]. intros best_configs.
  by rewrite get_best_config_result, (lookup_union_Some_l _ _ _ _ Hconfig).
Qed.

Lemma get_best_config_known_witness :
  ∃ config,
    tuned_table !! "AE" = Some config ∧
    ∀ best_configs,
      (Config.get_best_config "AE" best_configs).1 = Ok config.
Proof.
  apply (get_best_config_known "AE").
  apply list_elem_of_further, list_elem_of_here.
Defined.

(** X18: a name that is neither one of the four nor already in the dictionary
    raises [KeyError], and the call has bound the four configurations all the
    same. *)
Theorem get_best_config_unknown (algo_name : string)
    (best_configs : gmap string (gmap string pyval)) :
  algo_name ∉ known_algorithms →
  best_configs !! algo_name = None →
  Config.get_best_config algo_name best_configs
    = (Raise (KeyError algo_name), tuned_table ∪ best_configs).
Proof.
  intros Hunknown Hnone.
  rewrite (surjective_pairing (Config.get_best_config _ _)).
  rewrite get_best_config_result, get_best_config_store.
  assert (Hlookup : (tuned_table ∪ best_configs) !! algo_name = None).
  { apply lookup_union_None. split; [ | exact Hnone ].
    apply eq_None_not_Some. by rewrite tuned_table_lookup. }
  by rewrite Hlookup.
Qed.

Lemma get_best_config_unknown_witness :
  Config.get_best_config "TranAD" ∅
    = (Raise (KeyError "TranAD"), tuned_table ∪ ∅).
Proof.
  apply get_best_config_unknown; [ | reflexivity ].
  intros Hin. repeat (apply elem_of_cons in Hin as [ Hin | Hin ];
                      [ discriminate Hin | ]).
  by apply elem_of_nil in Hin.
Defined.

(** X19: the dictionary a call leaves behind does not depend on the name
    asked for, a further call leaves it unchanged, and names other than the
    four keep the binding they had. *)
Theorem get_best_config_store_stable (a b : string)
    (best_configs : gmap string (gmap string pyval)) :
  (Config.get_best_config a best_configs).2
    = (Config.get_best_config b best_configs).2 ∧
  (Config.get_best_config b (Config.get_best_config a best_configs).2).2
    = (Config.get_best_config a best_configs).2 ∧
  (∀ k, k ∉ known_algorithms →
        (Config.get_best_config a best_configs).2 !! k = best_configs !! k).
Proof.
  rewrite !get_best_config_store. split; [ reflexivity | split ].
  - by rewrite (assoc_L (∪)), (idemp_L (∪)).
  - intros k Hk. apply lookup_union_r.
    apply eq_None_not_Some. by rewrite tuned_table_lookup.
Qed.

(** X20: as long as the dictionary holds no name besides the four, every
    configuration [get_best_config] returns has the learning rate 0.0001, the
    weight decay 1e-5 and a number of epochs between 1 and 15. *)
Theorem get_best_config_common_options (algo_name : string)
    (best_configs : gmap string (gmap string pyval))
    (config : gmap string pyval) :
  (∀ k, k ∉ known_algorithms → best_configs !! k = None) →
  (Config.get_best_config algo_name best_configs).1 = Ok config →
  config !! "learning_rate" = Some (PFloat 0.0001) ∧
  config !! "weight_decay" = Some (PFloat 1e-5) ∧
  ∃ n, config !! "num_epochs" = Some (PInt n) ∧ 1 ≤ n ≤ 15.
Proof.
  intros Hforeign. unfold Config.get_best_config. cbn [fst].
  rewrite !lookup_insert.
  repeat case_decide; subst.
  1-4: intros [= <-];
    (split; [ reflexivity | split; [ reflexivity | ] ]);
    eexists; (split; [ reflexivity | lia ]).
  rewrite Hforeign; [ discriminate | ].
  intros Hin. repeat (apply elem_of_cons in Hin as [ Hin | Hin ];
                      [ congruence | ]).
  by apply elem_of_nil in Hin.
Qed.

Lemma get_best_config_common_options_witness :
  ∃ config,
    (Config.get_best_config "LSTM_AD" tuned_table).1 = Ok config ∧
    config !! "learning_rate" = Some (PFloat 0.0001) ∧
    config !! "weight_decay" = Some (PFloat 1e-5) ∧
    ∃ n, config !! "num_epochs" = Some (PInt n) ∧ 1 ≤ n ≤ 15.
Proof.
  eexists. split; [ reflexivity | ].
  apply (get_best_config_common_options "LSTM_AD" tuned_table).
  - intros k Hk. apply eq_None_not_Some. by rewrite tuned_table_lookup.
  - reflexivity.
Defined.

Lemma get_best_config_store_stable_witness :
  (Config.get_best_config "AE" {[ "mine" := ∅ ]}).2 !! "mine" = Some ∅.
Proof.
  rewrite (proj2 (proj2 (get_best_config_store_stable
                           "AE" "USAD" {[ "mine" := ∅ ]})) "mine").
  - reflexivity.
  - intros Hin. repeat (apply elem_of_cons in Hin as [ Hin | Hin ];
                        [ discriminate Hin | ]).
    by apply elem_of_nil in Hin.
Defined.
